(** * PDF Studio Pro: page-range parsing and page assembly

    A shallow embedding of the core operations of
    [pdf_studio_pro_streamlit.py] ([merge_pdfs], [_parse_segments],
    [split_pdf], [extract_pages] and the guard of the extract button), with
    the properties of the range language and of the assembly proved about
    them.

    Modelling conventions.
    - A Python [str] is a [string]; the model covers ASCII text, where
      [str.isdigit] is "every character is one of 0..9 and there is at least
      one" and [int] of such a string does not raise (the interpreter's
      limit on the length of a numeral, 4300 digits unless configured
      otherwise, is left out).
    - A Python [int] is a [Z].
    - [raise ValueError(msg)] is [Raise (ValueError msg)], with the message
      built as the f-string builds it.
    - The PDF codec (pypdf) is a parameter: a decoded document is the list
      of its pages, a [PdfWriter] is the list of the pages added so far and
      [write] turns that list into the bytes handed back to the caller. *)

From Stdlib Require Import ZArith List Bool Ascii String Lia.
From Stdlib Require Import Decimal DecimalString DecimalZ.
Import ListNotations.

Local Open Scope string_scope.
Local Open Scope list_scope.
Local Open Scope Z_scope.

(** ** Exceptions *)

Inductive exn : Type :=
| ValueError (msg : string)
| IndexError
| PdfReadError.

Inductive result (A : Type) : Type :=
| Ok (a : A)
| Raise (e : exn).

Arguments Ok {A} a.
Arguments Raise {A} e.

Definition bind {A B : Type} (m : result A) (k : A -> result B) : result B :=
  match m with
  | Ok a => k a
  | Raise e => Raise e
  end.

Notation "x <- m ;; k" := (bind m (fun x => k))
  (at level 61, m at next level, right associativity).
Notation "' p <- m ;; k" := (bind m (fun p => k))
  (at level 61, p pattern, m at next level, right associativity).

(** ** Python string primitives *)

Module Py.

(** [c in s] for a one-character [c]. *)
Fixpoint contains (c : ascii) (s : string) : bool :=
  match s with
  | EmptyString => false
  | String x s' => if Ascii.eqb x c then true else contains c s'
  end.

(** [s.replace(c, "")] for a one-character [c]. *)
Fixpoint remove (c : ascii) (s : string) : string :=
  match s with
  | EmptyString => EmptyString
  | String x s' => if Ascii.eqb x c then remove c s' else String x (remove c s')
  end.

(** [s.split(sep)] for a one-character [sep]; never the empty list. *)
Fixpoint split (sep : ascii) (s : string) : list string :=
  match s with
  | EmptyString => [EmptyString]
  | String x s' =>
      if Ascii.eqb x sep then EmptyString :: split sep s'
      else match split sep s' with
           | [] => [String x EmptyString]
           | t :: ts => String x t :: ts
           end
  end.

(** [s.split(sep, 1)]: one piece when [sep] is absent, else the text before
    and after its first occurrence. *)
Fixpoint split1 (sep : ascii) (s : string) : list string :=
  match s with
  | EmptyString => [EmptyString]
  | String x s' =>
      if Ascii.eqb x sep then [EmptyString; s']
      else match split1 sep s' with
           | t :: ts => String x t :: ts
           | [] => [String x EmptyString]
           end
  end.

(** The text before the last [sep], when there is one. *)
Fixpoint before_last (sep : ascii) (s : string) : option string :=
  match s with
  | EmptyString => None
  | String x s' =>
      match before_last sep s' with
      | Some r => Some (String x r)
      | None => if Ascii.eqb x sep then Some EmptyString else None
      end
  end.

(** [s.rsplit(sep, 1)[0]]. *)
Definition rsplit1_head (sep : ascii) (s : string) : string :=
  match before_last sep s with
  | Some r => r
  | None => s
  end.

Definition is_digit (c : ascii) : bool :=
  ((48 <=? nat_of_ascii c) && (nat_of_ascii c <=? 57))%nat.

Fixpoint all_digits (s : string) : bool :=
  match s with
  | EmptyString => true
  | String x s' => is_digit x && all_digits s'
  end.

(** [s.isdigit()] on ASCII text. *)
Definition isdigit (s : string) : bool :=
  match s with
  | EmptyString => false
  | _ => all_digits s
  end.

Definition digit_value (c : ascii) : Z := Z.of_nat (nat_of_ascii c) - 48.

Fixpoint int_acc (acc : Z) (s : string) : Z :=
  match s with
  | EmptyString => acc
  | String x s' => int_acc (10 * acc + digit_value x) s'
  end.

(** [int(s)], used only on strings that passed [isdigit]; the limit of
    4300 digits beyond which [int] raises is [int_accepts] below. *)
Definition int (s : string) : Z := int_acc 0 s.

(** [str(n)], the decimal text of an integer. *)
Definition str (n : Z) : string := NilZero.string_of_int (Z.to_int n).

(** Whitespace of [str.strip()] on ASCII text: tab, line feed,
    vertical tab, form feed, carriage return, the separators 28..31 and the
    space. *)
Definition is_space (c : ascii) : bool :=
  let n := nat_of_ascii c in
  (((9 <=? n) && (n <=? 13)) || ((28 <=? n) && (n <=? 32)))%nat.

Fixpoint lstrip (s : string) : string :=
  match s with
  | EmptyString => EmptyString
  | String x s' => if is_space x then lstrip s' else s
  end.

Fixpoint rstrip (s : string) : string :=
  match s with
  | EmptyString => EmptyString
  | String x s' =>
      match rstrip s' with
      | EmptyString => if is_space x then EmptyString else String x EmptyString
      | r => String x r
      end
  end.

(** [s.strip()]. *)
Definition strip (s : string) : string := rstrip (lstrip s).

(** [not s], the truth value of a string. *)
Definition is_empty (s : string) : bool :=
  match s with
  | EmptyString => true
  | _ => false
  end.

(** [range(a, b)]. *)
Definition range (a b : Z) : list Z :=
  map (fun i => a + Z.of_nat i) (seq 0 (Z.to_nat (b - a))).

End Py.

(** ** The messages of the [ValueError]s, under the names the design gives
    them *)

Definition EmptySpec : exn := ValueError "No ranges provided.".
Definition MalformedRange (t : string) : exn :=
  ValueError ("Invalid range: " ++ t).
Definition MalformedPageNumber (t : string) : exn :=
  ValueError ("Invalid page number: " ++ t).
Definition InvalidSegment (t : string) : exn :=
  ValueError ("Invalid segment: " ++ t).
Definition OutOfBounds (t : string) (total_pages : Z) : exn :=
  ValueError ("Segment " ++ t ++ " exceeds total pages ("
              ++ Py.str total_pages ++ ").").
Definition PageOutOfBounds (p_int total : Z) : exn :=
  ValueError ("Page " ++ Py.str p_int ++ " out of bounds (1.."
              ++ Py.str total ++ ").").
(** [a, b = t.split("-", 1)] when the split has fewer than two pieces; the
    test ["-" in t] before it keeps this from happening. *)
Definition UnpackError : exn :=
  ValueError "not enough values to unpack (expected 2, got 1)".

(** ** [_parse_segments] *)

(** The body of the loop over the tokens, up to [segments.append]. *)
Definition parse_token (t : string) (total_pages : Z) : result (Z * Z) :=
  '(start, end_) <-
    (if Py.contains "-" t then
       match Py.split1 "-" t with
       | [a; b] =>
           if negb (Py.isdigit a) || negb (Py.isdigit b)
           then Raise (MalformedRange t)
           else Ok (Py.int a, Py.int b)
       | _ => Raise UnpackError
       end
     else
       if negb (Py.isdigit t) then Raise (MalformedPageNumber t)
       else Ok (Py.int t, Py.int t)) ;;
  if (start <? 1) || (end_ <? 1) || (end_ <? start)
  then Raise (InvalidSegment t)
  else if end_ >? total_pages then Raise (OutOfBounds t total_pages)
  else Ok (start, end_).

(** [for t in tokens: ...; segments.append((start, end))]. *)
Fixpoint parse_loop (tokens : list string) (total_pages : Z)
    (segments : list (Z * Z)) : result (list (Z * Z)) :=
  match tokens with
  | [] => Ok segments
  | t :: tokens' =>
      seg <- parse_token t total_pages ;;
      parse_loop tokens' total_pages (segments ++ [seg])
  end.

(** [[t for t in spec_text.split(",") if t]] *)
Definition nonempty_tokens (spec_text : string) : list string :=
  filter (fun t => negb (Py.is_empty t)) (Py.split "," spec_text).

Definition _parse_segments (spec_text : string) (total_pages : Z)
    : result (list (Z * Z)) :=
  let spec_text := Py.remove " " spec_text in
  if Py.is_empty spec_text then Raise EmptySpec
  else parse_loop (nonempty_tokens spec_text) total_pages [].

(** ** The operations on documents *)

Section Codec.

(** pypdf, as far as the operations use it: [PdfReader(f).pages] decodes an
    uploaded file into its pages or raises, and [write] is
    [PdfWriter.write] followed by reading the buffer back. *)
Variables File Page Bytes : Type.
Variable PdfReader : File -> result (list Page).
Variable write : list Page -> Bytes.

(** [reader.pages[index]]: a negative index counts from the end, an index
    outside the sequence raises [IndexError]. *)
Definition getitem (pages : list Page) (index : Z) : result Page :=
  let len_self := Z.of_nat (List.length pages) in
  let index := if index <? 0 then len_self + index else index in
  if (index <? 0) || (index >=? len_self) then Raise IndexError
  else match nth_error pages (Z.to_nat index) with
       | Some page => Ok page
       | None => Raise IndexError
       end.

(** [for page in pages: writer.add_page(page)]. *)
Definition add_all (pages writer : list Page) : list Page :=
  fold_left (fun w page => w ++ [page]) pages writer.

(** [for pdf_file in uploaded_files: ...] of [merge_pdfs]. *)
Fixpoint merge_loop (uploaded_files : list File) (writer : list Page)
    : result (list Page) :=
  match uploaded_files with
  | [] => Ok writer
  | pdf_file :: rest =>
      pages <- PdfReader pdf_file ;;
      merge_loop rest (add_all pages writer)
  end.

Definition merge_pdfs (uploaded_files : list File) : result Bytes :=
  writer <- merge_loop uploaded_files [] ;;
  Ok (write writer).

(** [for p in indices: writer.add_page(reader.pages[p])]. *)
Fixpoint add_pages (reader_pages : list Page) (indices : list Z)
    (writer : list Page) : result (list Page) :=
  match indices with
  | [] => Ok writer
  | p :: rest =>
      page <- getitem reader_pages p ;;
      add_pages reader_pages rest (writer ++ [page])
  end.

(** [original_filename.rsplit('.', 1)[0] if '.' in original_filename else
    original_filename]. *)
Definition base_name (original_filename : string) : string :=
  if Py.contains "." original_filename
  then Py.rsplit1_head "." original_filename
  else original_filename.

Definition out_name (base : string) (start end_ : Z) : string :=
  if start =? end_
  then base ++ "_p" ++ Py.str start ++ ".pdf"
  else base ++ "_p" ++ Py.str start ++ "-" ++ Py.str end_ ++ ".pdf".

(** [for idx, (start, end) in enumerate(segments, 1): ...]; [idx] is not
    used by the body. *)
Fixpoint split_loop (reader_pages : list Page) (base : string)
    (segments : list (Z * Z)) (created_files : list (string * Bytes))
    : result (list (string * Bytes)) :=
  match segments with
  | [] => Ok created_files
  | (start, end_) :: rest =>
      writer <- add_pages reader_pages (Py.range (start - 1) end_) [] ;;
      split_loop reader_pages base rest
        (created_files ++ [(out_name base start end_, write writer)])
  end.

Definition split_pdf (uploaded_file : File) (spec_text : string)
    (original_filename : string) : result (list (string * Bytes)) :=
  reader_pages <- PdfReader uploaded_file ;;
  let total_pages := Z.of_nat (List.length reader_pages) in
  segments <- _parse_segments spec_text total_pages ;;
  let base := base_name original_filename in
  split_loop reader_pages base segments [].

(** [[p.strip() for p in pages_text.split(",") if p.strip()]] *)
Definition page_tokens (pages_text : string) : list string :=
  map Py.strip
    (filter (fun p => negb (Py.is_empty (Py.strip p)))
       (Py.split "," pages_text)).

(** [for p in pages: ...] of [extract_pages]. *)
Fixpoint extract_loop (reader_pages : list Page) (total : Z)
    (pages : list string) (writer : list Page) : result (list Page) :=
  match pages with
  | [] => Ok writer
  | p :: rest =>
      if negb (Py.isdigit p) then Raise (MalformedPageNumber p)
      else
        let p_int := Py.int p in
        if (p_int <? 1) || (p_int >? total)
        then Raise (PageOutOfBounds p_int total)
        else
          page <- getitem reader_pages (p_int - 1) ;;
          extract_loop reader_pages total rest (writer ++ [page])
  end.

Definition extract_pages (uploaded_file : File) (pages_text : string)
    : result Bytes :=
  reader_pages <- PdfReader uploaded_file ;;
  let total := Z.of_nat (List.length reader_pages) in
  writer <- extract_loop reader_pages total (page_tokens pages_text) [] ;;
  Ok (write writer).

(** The body of [if st.button("Extract Pages")]: what the page shows.
    [st.error] with a fixed text, [st.error] with the text of a caught
    exception, or the download button with its data and file name (the
    pictographs in front of the texts are left out). *)
Inductive shown : Type :=
| StError (msg : string)
| StErrorExn (e : exn)
| StDownload (data : Bytes) (file_name : string).

Definition NoPagesSpecified : shown :=
  StError "Please enter at least one page number.".

Definition extract_btn (extract_file : File) (extract_pages_input : string)
    : shown :=
  if Py.is_empty extract_pages_input
     || Py.is_empty (Py.strip extract_pages_input)
  then NoPagesSpecified
  else match extract_pages extract_file extract_pages_input with
       | Ok extracted_pdf => StDownload extracted_pdf "extracted.pdf"
       | Raise e => StErrorExn e
       end.

End Codec.

Arguments getitem {Page} pages index.
Arguments add_all {Page} pages writer.
Arguments add_pages {Page} reader_pages indices writer.
Arguments merge_loop {File Page} PdfReader uploaded_files writer.
Arguments merge_pdfs {File Page Bytes} PdfReader write uploaded_files.
Arguments split_loop {Page Bytes} write reader_pages base segments
  created_files.
Arguments split_pdf {File Page Bytes} PdfReader write uploaded_file spec_text
  original_filename.
Arguments extract_loop {Page} reader_pages total pages writer.
Arguments extract_pages {File Page Bytes} PdfReader write uploaded_file
  pages_text.
Arguments extract_btn {File Page Bytes} PdfReader write extract_file
  extract_pages_input.
Arguments StError {Bytes} msg.
Arguments StErrorExn {Bytes} e.
Arguments StDownload {Bytes} data file_name.
Arguments NoPagesSpecified {Bytes}.

(** A codec to run the operations on: a file is the list of its page
    labels, decoding never fails and the bytes written are the labels of
    the pages in the writer. *)
Module Demo.
Definition reader (f : list nat) : result (list nat) := Ok f.
Definition writer (w : list nat) : list nat := w.
Definition merge := merge_pdfs reader writer.
Definition split := split_pdf reader writer.
Definition extract := extract_pages reader writer.
Definition extract_button := extract_btn reader writer.
End Demo.

(** ** Notions used by the statements *)

(** What a token stands for: a bare number [n] for [(n, n)], a range
    [a-b] for [(a, b)]. *)
Inductive token_denotes : string -> Z * Z -> Prop :=
| denotes_number (t : string) :
    Py.isdigit t = true -> token_denotes t (Py.int t, Py.int t)
| denotes_range (a b : string) :
    Py.isdigit a = true -> Py.isdigit b = true ->
    token_denotes (a ++ "-" ++ b)%string (Py.int a, Py.int b).

(** A segment inside a document of [total_pages] pages. *)
Definition valid_segment (total_pages : Z) (seg : Z * Z) : Prop :=
  1 <= fst seg /\ fst seg <= snd seg /\ snd seg <= total_pages.

(** A token the parser has nothing to say against. *)
Definition good_token (total_pages : Z) (t : string) : Prop :=
  exists seg, token_denotes t seg /\ valid_segment total_pages seg.

(** Page number [k] of a document, counted from 1. *)
Definition page_number {Page : Type} (pages : list Page) (k : Z)
    : option Page :=
  if k <? 1 then None else nth_error pages (Z.to_nat (k - 1)).

(** Pages [start..end_] of a document, counted from 1, both ends included. *)
Definition pages_of_segment {Page : Type} (pages : list Page)
    (start end_ : Z) : list Page :=
  firstn (Z.to_nat (end_ - start + 1)) (skipn (Z.to_nat (start - 1)) pages).

(** Two texts that are the same once the spaces are taken out. *)
Inductive differ_only_in_spaces : string -> string -> Prop :=
| dois_nil : differ_only_in_spaces "" ""
| dois_char (c : ascii) (s1 s2 : string) :
    differ_only_in_spaces s1 s2 ->
    differ_only_in_spaces (String c s1) (String c s2)
| dois_left (s1 s2 : string) :
    differ_only_in_spaces s1 s2 ->
    differ_only_in_spaces (String " " s1) s2
| dois_right (s1 s2 : string) :
    differ_only_in_spaces s1 s2 ->
    differ_only_in_spaces s1 (String " " s2).

Fixpoint only_spaces (s : string) : bool :=
  match s with
  | EmptyString => true
  | String c s' => Ascii.eqb c " " && only_spaces s'
  end.

Fixpoint only_whitespace (s : string) : bool :=
  match s with
  | EmptyString => true
  | String c s' => Py.is_space c && only_whitespace s'
  end.

(** The output name as the design document words it, without the file
    extension that [out_name] appends. *)
Definition name_without_extension (base : string) (start end_ : Z) : string :=
  if start =? end_
  then (base ++ "_p" ++ Py.str start)%string
  else (base ++ "_p" ++ Py.str start ++ "-" ++ Py.str end_)%string.

(** A token [extract_pages] has nothing to say against. *)
Definition good_page_token (total : Z) (t : string) : Prop :=
  Py.isdigit t = true /\ 1 <= Py.int t <= total.

(** The checks of [parse_token] that follow the reading of [start] and
    [end_]. *)
Definition check_segment (total_pages : Z) (t : string) (seg : Z * Z)
    : result (Z * Z) :=
  let '(start, end_) := seg in
  if (start <? 1) || (end_ <? 1) || (end_ <? start)
  then Raise (InvalidSegment t)
  else if end_ >? total_pages then Raise (OutOfBounds t total_pages)
  else Ok (start, end_).

(** What [split_pdf] returns for a valid segment. *)
Definition split_output {Page Bytes : Type} (write : list Page -> Bytes)
    (pages : list Page) (base : string) (seg : Z * Z) : string * Bytes :=
  (out_name base (fst seg) (snd seg),
   write (pages_of_segment pages (fst seg) (snd seg))).

(** ** The tabs of the page around the operations *)

(** [enumerate(l)]. *)
Definition enumerate {A : Type} (l : list A) : list (Z * A) :=
  combine (map Z.of_nat (seq 0 (List.length l))) l.

Section Tabs.

Variables File Page Bytes : Type.
Variable PdfReader : File -> result (list Page).

(** [get_pdf_info]: [len(reader.pages)]. *)
Definition get_pdf_info (uploaded_file : File) : result Z :=
  reader_pages <- PdfReader uploaded_file ;;
  Ok (Z.of_nat (List.length reader_pages)).

(** What the split tab shows under "Preview": nothing for an empty text,
    [st.warning] with the text of a caught [ValueError], or, under the
    heading, one [st.write] line per segment (the heading and the bullet in
    front of each line are left out). Only [ValueError] is caught. *)
Inductive preview : Type :=
| PreviewWarning (msg : string)
| PreviewFiles (lines : list string).

Definition preview_line (base : string) (start end_ : Z) : string :=
  if start =? end_
  then (base ++ "_p" ++ Py.str start ++ ".pdf (page " ++ Py.str start
        ++ ")")%string
  else (base ++ "_p" ++ Py.str start ++ "-" ++ Py.str end_ ++ ".pdf (pages "
        ++ Py.str start ++ "-" ++ Py.str end_ ++ ")")%string.

Definition split_preview (name split_spec : string) (total_pages : Z)
    : result (option preview) :=
  if Py.is_empty split_spec then Ok None
  else
    match _parse_segments split_spec total_pages with
    | Ok segments =>
        let base := Py.rsplit1_head "." name in
        Ok (Some (PreviewFiles
                    (map (fun seg => preview_line base (fst seg) (snd seg))
                       segments)))
    | Raise (ValueError msg) => Ok (Some (PreviewWarning msg))
    | Raise e => Raise e
    end.

(** The download buttons of "Or download individually": one per created
    file, in the column [cols[i % 3]] of [st.columns(min(len(created_files),
    3))], with the key [split_download_<i>] (the pictograph in front of the
    label is left out). *)
Record download_button : Type := {
  column : Z;
  label : string;
  data : Bytes;
  file_name : string;
  mime : string;
  key : string
}.

Definition n_columns (created_files : list (string * Bytes)) : Z :=
  Z.min (Z.of_nat (List.length created_files)) 3.

Definition individual_downloads (created_files : list (string * Bytes))
    : list download_button :=
  map (fun entry =>
         let '(i, (filename, data)) := entry in
         {| column := i mod 3;
            label := filename;
            data := data;
            file_name := filename;
            mime := "application/pdf";
            key := ("split_download_" ++ Py.str i)%string |})
    (enumerate created_files).

(** The line the extract tab shows before the button is pressed, when
    there is one. *)
Definition extract_preview (extract_pages_input : string) : option string :=
  if Py.is_empty extract_pages_input then None
  else
    let pages_list := page_tokens extract_pages_input in
    match pages_list with
    | [] => None
    | _ =>
        Some ("**Will extract " ++ Py.str (Z.of_nat (List.length pages_list))
              ++ " page(s):** " ++ String.concat ", " pages_list)%string
    end.

End Tabs.

Arguments get_pdf_info {File Page} PdfReader uploaded_file.
Arguments individual_downloads {Bytes} created_files.
Arguments n_columns {Bytes} created_files.
Arguments column {Bytes} d.
Arguments label {Bytes} d.
Arguments data {Bytes} d.
Arguments file_name {Bytes} d.
Arguments mime {Bytes} d.
Arguments key {Bytes} d.

(** A text made of commas only. *)
Fixpoint only_commas (s : string) : bool :=
  match s with
  | EmptyString => true
  | String c s' => Ascii.eqb c "," && only_commas s'
  end.

(** The text in brackets at the end of a line of the preview. *)
Definition preview_label (start end_ : Z) : string :=
  if start =? end_
  then (" (page " ++ Py.str start ++ ")")%string
  else (" (pages " ++ Py.str start ++ "-" ++ Py.str end_ ++ ")")%string.

(** The sum of a list of page counts. *)
Definition total_count (counts : list Z) : Z := fold_right Z.add 0 counts.

(** A second codec to run the operations on: as [Demo], but a file without
    any page does not decode. *)
Module Strict.
Definition reader (f : list nat) : result (list nat) :=
  match f with
  | [] => Raise PdfReadError
  | _ => Ok f
  end.
Definition merge := merge_pdfs reader Demo.writer.
End Strict.

(** Segments that follow one another without gap or overlap, from page [a]
    to page [n]. *)
Fixpoint consecutive (a : Z) (segs : list (Z * Z)) (n : Z) : Prop :=
  match segs with
  | [] => a = n + 1
  | (start, end_) :: rest => start = a /\ consecutive (end_ + 1) rest n
  end.

(** ** The inputs on which the builtins are modelled

    [Py.isdigit], [Py.int] and [Py.strip] are [str.isdigit], [int] and
    [str.strip] on ASCII text and on numerals of at most 4300 digits.
    Beyond ASCII, [str.isdigit] and [str.strip] know more digits and more
    whitespace; on a numeral of more than 4300 digits (the default of
    [sys.get_int_max_str_digits()]) [int] raises a [ValueError] of its own.
    A statement that says what the code does with a token carries these
    bounds as hypotheses. *)

Fixpoint is_ascii (s : string) : bool :=
  match s with
  | EmptyString => true
  | String c s' => (nat_of_ascii c <? 128)%nat && is_ascii s'
  end.

Definition max_str_digits : Z := 4300.

(** [int(s)] returns for a string [s] of digits. *)
Definition int_accepts (s : string) : bool :=
  Z.of_nat (String.length s) <=? max_str_digits.

(** What a token yields: [int] has returned [start] and [end_]. *)
Inductive token_yields : string -> Z * Z -> Prop :=
| yields_number (t : string) :
    Py.isdigit t = true -> int_accepts t = true ->
    token_yields t (Py.int t, Py.int t)
| yields_range (a b : string) :
    Py.isdigit a = true -> Py.isdigit b = true ->
    int_accepts a = true -> int_accepts b = true ->
    token_yields (a ++ "-" ++ b)%string (Py.int a, Py.int b).

(** A token that passes every check of [_parse_segments]. *)
Definition passing_token (total_pages : Z) (t : string) : Prop :=
  exists seg, token_yields t seg /\ valid_segment total_pages seg.

(** A token that passes every check of [extract_pages]. *)
Definition passing_page_token (total : Z) (t : string) : Prop :=
  Py.isdigit t = true /\ int_accepts t = true /\ 1 <= Py.int t <= total.

(** [p] is [core] with whitespace put before and after it. *)
Definition padded (core p : string) : Prop :=
  exists l r,
    only_whitespace l = true /\ only_whitespace r = true
    /\ p = (l ++ core ++ r)%string.

(** ** The operations over an arbitrary read of [reader.pages[index]]

    The loops of [split_pdf] and [extract_pages] once more, with the read
    of a page as a parameter [get] in the place of [getitem]; they serve
    to say which indices the operations read. *)

Section Accessor.

Variables File Page Bytes : Type.
Variable PdfReader : File -> result (list Page).
Variable write : list Page -> Bytes.
Variable get : list Page -> Z -> result Page.

Fixpoint add_pages_with (reader_pages : list Page) (indices : list Z)
    (writer : list Page) : result (list Page) :=
  match indices with
  | [] => Ok writer
  | p :: rest =>
      page <- get reader_pages p ;;
      add_pages_with reader_pages rest (writer ++ [page])
  end.

Fixpoint split_loop_with (reader_pages : list Page) (base : string)
    (segments : list (Z * Z)) (created_files : list (string * Bytes))
    : result (list (string * Bytes)) :=
  match segments with
  | [] => Ok created_files
  | (start, end_) :: rest =>
      writer <- add_pages_with reader_pages (Py.range (start - 1) end_) [] ;;
      split_loop_with reader_pages base rest
        (created_files ++ [(out_name base start end_, write writer)])
  end.

Definition split_pdf_with (uploaded_file : File) (spec_text : string)
    (original_filename : string) : result (list (string * Bytes)) :=
  reader_pages <- PdfReader uploaded_file ;;
  let total_pages := Z.of_nat (List.length reader_pages) in
  segments <- _parse_segments spec_text total_pages ;;
  let base := base_name original_filename in
  split_loop_with reader_pages base segments [].

Fixpoint extract_loop_with (reader_pages : list Page) (total : Z)
    (pages : list string) (writer : list Page) : result (list Page) :=
  match pages with
  | [] => Ok writer
  | p :: rest =>
      if negb (Py.isdigit p) then Raise (MalformedPageNumber p)
      else
        let p_int := Py.int p in
        if (p_int <? 1) || (p_int >? total)
        then Raise (PageOutOfBounds p_int total)
        else
          page <- get reader_pages (p_int - 1) ;;
          extract_loop_with reader_pages total rest (writer ++ [page])
  end.

Definition extract_pages_with (uploaded_file : File) (pages_text : string)
    : result Bytes :=
  reader_pages <- PdfReader uploaded_file ;;
  let total := Z.of_nat (List.length reader_pages) in
  writer <- extract_loop_with reader_pages total (page_tokens pages_text) [] ;;
  Ok (write writer).

End Accessor.

Arguments add_pages_with {Page} get reader_pages indices writer.
Arguments split_loop_with {Page Bytes} write get reader_pages base segments
  created_files.
Arguments split_pdf_with {File Page Bytes} PdfReader write get uploaded_file
  spec_text original_filename.
Arguments extract_loop_with {Page} get reader_pages total pages writer.
Arguments extract_pages_with {File Page Bytes} PdfReader write get
  uploaded_file pages_text.

(** A read that knows no index but [0 <= index < len(pages)]: a negative
    index does not count from the end, it raises [IndexError] like an index
    past the end. *)
Definition getitem_strict {Page : Type} (pages : list Page) (index : Z)
    : result Page :=
  if (index <? 0) || (index >=? Z.of_nat (List.length pages))
  then Raise IndexError
  else match nth_error pages (Z.to_nat index) with
       | Some page => Ok page
       | None => Raise IndexError
       end.

(** ** Tactics *)

(** Evaluates the value of a literal digit in the goal. *)
Ltac eval_digit :=
  repeat match goal with
    | |- context [Py.digit_value ?c] =>
        let v := eval vm_compute in (Py.digit_value c) in
        change (Py.digit_value c) with v
    end;
  change (10 * 0 + 0) with 0.

(** Closes a goal [Raise (ValueError m) = Raise e -> exists msg, e =
    ValueError msg]. *)
Ltac is_value_error :=
  let H := fresh in intros H; inversion H; subst; eexists; reflexivity.

(** * Properties *)

(** ** The model on examples *)

Example split_ex : Py.split "," "1,,3-5," = ["1"; ""; "3-5"; ""].
Proof. reflexivity. Qed.
Example split1_ex : Py.split1 "-" "3-5-7" = ["3"; "5-7"].
Proof. reflexivity. Qed.
Example rsplit_ex : Py.rsplit1_head "." "a.tar.gz" = "a.tar".
Proof. reflexivity. Qed.
Example strip_ex : Py.strip "  1 2 " = "1 2".
Proof. reflexivity. Qed.
Example int_ex : Py.int "007" = 7.
Proof. reflexivity. Qed.
Example str_ex : Py.str 120 = "120".
Proof. reflexivity. Qed.
Example range_ex : Py.range 2 5 = [2; 3; 4].
Proof. reflexivity. Qed.
Example parse_ex1 : _parse_segments "1,3-5,7" 10 = Ok [(1, 1); (3, 5); (7, 7)].
Proof. reflexivity. Qed.
Example parse_ex2 : _parse_segments "5-3" 10 = Raise (InvalidSegment "5-3").
Proof. reflexivity. Qed.
Example parse_ex3 : _parse_segments "1,11" 10 = Raise (OutOfBounds "11" 10).
Proof. reflexivity. Qed.
Example parse_ex4 : _parse_segments "" 10 = Raise EmptySpec.
Proof. reflexivity. Qed.
Example parse_ex5 : _parse_segments "3-" 10 = Raise (MalformedRange "3-").
Proof. reflexivity. Qed.
Example parse_ex6 : _parse_segments "x7" 10 = Raise (MalformedPageNumber "x7").
Proof. reflexivity. Qed.
Example parse_ex7 : _parse_segments "0" 10 = Raise (InvalidSegment "0").
Proof. reflexivity. Qed.
(** The test for an empty spec is on the text, not on the tokens. *)
Example parse_ex8 : _parse_segments "," 10 = Ok [].
Proof. reflexivity. Qed.
Example getitem_ex : getitem [10; 20; 30]%nat (-1) = Ok 30%nat.
Proof. reflexivity. Qed.
Example getitem_ex2 : getitem [10; 20; 30]%nat 3 = Raise IndexError.
Proof. reflexivity. Qed.
Example merge_ex : Demo.merge [[1; 2]; [7; 8; 9]]%nat = Ok [1; 2; 7; 8; 9]%nat.
Proof. reflexivity. Qed.
Example split_ex3 :
  Demo.split [10; 20; 30; 40]%nat "2-3, 4" "report.v2.pdf"
  = Ok [("report.v2_p2-3.pdf", [20; 30]%nat); ("report.v2_p4.pdf", [40]%nat)].
Proof. reflexivity. Qed.
Example extract_ex : Demo.extract [10; 20; 30]%nat "3, 1,1" = Ok [30; 10; 10]%nat.
Proof. reflexivity. Qed.
Example extract_ex2 :
  Demo.extract [10; 20; 30]%nat "3-5" = Raise (MalformedPageNumber "3-5").
Proof. reflexivity. Qed.
Example extract_ex3 :
  Demo.extract [10; 20; 30]%nat "4" = Raise (PageOutOfBounds 4 3).
Proof. reflexivity. Qed.

(** ** Strings *)

Section StringFacts.

Lemma append_nil_r (s : string) : (s ++ "")%string = s.
Proof. induction s; simpl; congruence. Qed.

Lemma append_assoc (a b c : string) :
  ((a ++ b) ++ c)%string = (a ++ (b ++ c))%string.
Proof. induction a; simpl; congruence. Qed.

Lemma append_inv_head (a x y : string) :
  (a ++ x)%string = (a ++ y)%string -> x = y.
Proof. induction a; simpl; intros H; [exact H | inversion H; auto]. Qed.

Lemma append_length (a b : string) :
  String.length (a ++ b) = (String.length a + String.length b)%nat.
Proof. induction a; simpl; congruence. Qed.

Lemma append_inv_tail (a x y : string) :
  (x ++ a)%string = (y ++ a)%string -> x = y.
Proof.
  revert y; induction x as [|c x IH]; intros [|d y] H; simpl in H.
  - reflexivity.
  - apply (f_equal String.length) in H. simpl in H.
    rewrite append_length in H. lia.
  - apply (f_equal String.length) in H. simpl in H.
    rewrite append_length in H. lia.
  - inversion H; subst. f_equal. auto.
Qed.

Lemma contains_append (c : ascii) (a b : string) :
  Py.contains c (a ++ b) = Py.contains c a || Py.contains c b.
Proof.
  induction a as [|x a IH]; simpl; [reflexivity|].
  destruct (Ascii.eqb x c); auto.
Qed.

(** Removing a character that does not occur, and splitting on one, leave
    the string as it is. *)
Lemma remove_absent (c : ascii) (s : string) :
  Py.contains c s = false -> Py.remove c s = s.
Proof.
  induction s as [|x s IH]; simpl; [reflexivity|].
  destruct (Ascii.eqb x c); [discriminate|]. intros H. now rewrite IH.
Qed.

Lemma split_absent (c : ascii) (s : string) :
  Py.contains c s = false -> Py.split c s = [s].
Proof.
  induction s as [|x s IH]; simpl; [reflexivity|].
  destruct (Ascii.eqb x c); [discriminate|]. intros H. now rewrite IH.
Qed.

Lemma remove_contains (c : ascii) (s : string) :
  Py.contains c (Py.remove c s) = false.
Proof.
  induction s as [|x s IH]; simpl; [reflexivity|].
  destruct (Ascii.eqb x c) eqn:E; simpl; [assumption|]. now rewrite E.
Qed.

(** [split] is inverse to joining with the separator, and no piece holds
    the separator. *)
Lemma split_nonnil (c : ascii) (s : string) : Py.split c s <> [].
Proof.
  destruct s as [|x s]; simpl; [discriminate|].
  destruct (Ascii.eqb x c); [discriminate|].
  destruct (Py.split c s); discriminate.
Qed.

Lemma concat_split (c : ascii) (s : string) :
  String.concat (String c "") (Py.split c s) = s.
Proof.
  induction s as [|x s IH]; simpl; [reflexivity|].
  destruct (Ascii.eqb_spec x c) as [->|N].
  - pose proof (split_nonnil c s) as NN.
    destruct (Py.split c s) as [|t ts] eqn:E; [congruence|].
    change (String.concat (String c "") ("" :: t :: ts))%string
      with (String c (String.concat (String c "") (t :: ts))).
    now rewrite IH.
  - pose proof (split_nonnil c s) as NN.
    destruct (Py.split c s) as [|t ts] eqn:E; [congruence|].
    rewrite <- IH. destruct ts; reflexivity.
Qed.

Lemma split_pieces (c : ascii) (s : string) :
  Forall (fun t => Py.contains c t = false) (Py.split c s).
Proof.
  induction s as [|x s IH]; simpl; [repeat constructor|].
  destruct (Ascii.eqb x c) eqn:E; [constructor; auto|].
  destruct (Py.split c s) as [|t ts]; [repeat constructor; simpl; now rewrite E|].
  inversion IH; subst. constructor; [simpl; now rewrite E | assumption].
Qed.

(** [split1] cuts at the first separator. *)
Lemma split1_two (c : ascii) (s a b : string) :
  Py.split1 c s = [a; b] ->
  s = (a ++ String c b)%string /\ Py.contains c a = false.
Proof.
  revert a; induction s as [|x s IH]; intros a; simpl; [discriminate|].
  destruct (Ascii.eqb_spec x c) as [->|N].
  - intros H; inversion H; subst. auto.
  - destruct (Py.split1 c s) as [|t [|u [|v ts]]] eqn:E; try discriminate.
    intros H; inversion H; subst.
    destruct (IH t eq_refl) as [-> Ht]. split; [reflexivity|].
    simpl. apply Ascii.eqb_neq in N. now rewrite N.
Qed.

Lemma split1_at (c : ascii) (a b : string) :
  Py.contains c a = false -> Py.split1 c (a ++ String c b) = [a; b].
Proof.
  induction a as [|x a IH]; simpl.
  - now rewrite Ascii.eqb_refl.
  - destruct (Ascii.eqb x c); [discriminate|]. intros H. now rewrite IH.
Qed.

Lemma split1_contains (c : ascii) (s : string) :
  Py.contains c s = true -> exists a b, Py.split1 c s = [a; b].
Proof.
  induction s as [|x s IH]; simpl; [discriminate|].
  destruct (Ascii.eqb x c); [eauto|].
  intros H. destruct (IH H) as (a & b & ->). eauto.
Qed.

(** [rsplit1_head] drops the last separator and what follows it. *)
Lemma before_last_absent (c : ascii) (s : string) :
  Py.contains c s = false -> Py.before_last c s = None.
Proof.
  induction s as [|x s IH]; simpl; [reflexivity|].
  destruct (Ascii.eqb x c); [discriminate|]. intros H. now rewrite IH.
Qed.

Lemma before_last_at (c : ascii) (a b : string) :
  Py.contains c b = false -> Py.before_last c (a ++ String c b) = Some a.
Proof.
  intros Hb. induction a as [|x a IH]; simpl.
  - rewrite before_last_absent by assumption. now rewrite Ascii.eqb_refl.
  - now rewrite IH.
Qed.

End StringFacts.

(** ** Decimal numerals *)

Section Numerals.

Lemma all_digits_append (a b : string) :
  Py.all_digits (a ++ b) = Py.all_digits a && Py.all_digits b.
Proof.
  induction a as [|x a IH]; simpl; [reflexivity|].
  rewrite IH. now rewrite andb_assoc.
Qed.

Lemma isdigit_all_digits (s : string) :
  Py.isdigit s = true -> Py.all_digits s = true.
Proof. destruct s; simpl; [discriminate | auto]. Qed.

Lemma isdigit_nonempty (s : string) : Py.isdigit s = true -> s <> "".
Proof. destruct s; simpl; [discriminate | discriminate]. Qed.

(** A string of digits holds no other character. *)
Lemma all_digits_contains (c : ascii) (s : string) :
  Py.is_digit c = false -> Py.all_digits s = true -> Py.contains c s = false.
Proof.
  intros Hc. induction s as [|x s IH]; simpl; [reflexivity|].
  intros H. apply andb_prop in H as [Hx Hs].
  destruct (Ascii.eqb_spec x c) as [->|_]; [congruence | auto].
Qed.

Lemma string_of_uint_digits (d : uint) :
  Py.all_digits (NilEmpty.string_of_uint d) = true.
Proof. induction d; simpl; auto. Qed.

Lemma string_of_uint_nonempty (d : uint) :
  d <> Nil -> NilEmpty.string_of_uint d <> "".
Proof. destruct d; simpl; congruence. Qed.

Lemma nilzero_nilempty (d : uint) :
  d <> Nil -> NilZero.string_of_uint d = NilEmpty.string_of_uint d.
Proof. destruct d; simpl; congruence. Qed.

Lemma str_pos (p : positive) :
  Py.str (Z.pos p) = NilEmpty.string_of_uint (Pos.to_uint p).
Proof.
  unfold Py.str. simpl.
  apply nilzero_nilempty, DecimalPos.Unsigned.to_uint_nonnil.
Qed.

(** [str] of a natural number is a non-empty string of digits. *)
Lemma str_isdigit (n : Z) : 0 <= n -> Py.isdigit (Py.str n) = true.
Proof.
  intros Hn. destruct n as [|p|p]; [reflexivity| |lia].
  rewrite str_pos.
  pose proof (string_of_uint_digits (Pos.to_uint p)) as Hd.
  pose proof (string_of_uint_nonempty (Pos.to_uint p)
                (DecimalPos.Unsigned.to_uint_nonnil p)) as Hne.
  destruct (NilEmpty.string_of_uint (Pos.to_uint p)); [congruence | exact Hd].
Qed.

Lemma int_acc_pos (d : uint) (acc : positive) :
  Py.int_acc (Z.pos acc) (NilEmpty.string_of_uint d)
  = Z.pos (Pos.of_uint_acc d acc).
Proof.
  revert acc; induction d; intros acc;
    cbn [NilEmpty.string_of_uint Py.int_acc Pos.of_uint_acc];
    [reflexivity | ..]; rewrite <- IHd; f_equal; eval_digit; lia.
Qed.

Lemma int_acc_zero (d : uint) :
  Py.int_acc 0 (NilEmpty.string_of_uint d) = Z.of_N (Pos.of_uint d).
Proof.
  induction d; cbn [NilEmpty.string_of_uint Py.int_acc Pos.of_uint];
    eval_digit; [reflexivity | exact IHd | ..]; apply int_acc_pos.
Qed.

(** [int] reads back what [str] prints. *)
Lemma int_str (n : Z) : 0 <= n -> Py.int (Py.str n) = n.
Proof.
  intros Hn. destruct n as [|p|p]; [reflexivity| |lia].
  rewrite str_pos. unfold Py.int. rewrite int_acc_zero.
  now rewrite DecimalPos.Unsigned.of_to.
Qed.

Lemma str_inj (n m : Z) : 0 <= n -> 0 <= m -> Py.str n = Py.str m -> n = m.
Proof.
  intros Hn Hm H. rewrite <- (int_str n Hn), <- (int_str m Hm). now rewrite H.
Qed.

Lemma int_acc_lower (s : string) (acc : Z) :
  Py.all_digits s = true -> 0 <= acc -> 0 <= Py.int_acc acc s.
Proof.
  revert acc; induction s as [|x s IH]; intros acc;
    cbn [Py.all_digits Py.int_acc]; [auto|].
  intros H Hacc. apply andb_prop in H as [Hx Hs].
  apply IH; [assumption|].
  unfold Py.is_digit in Hx. apply andb_prop in Hx as [Hlo _].
  apply Nat.leb_le in Hlo. unfold Py.digit_value. lia.
Qed.

Lemma int_nonneg (s : string) : Py.isdigit s = true -> 0 <= Py.int s.
Proof.
  intros H. apply int_acc_lower; [now apply isdigit_all_digits | lia].
Qed.

End Numerals.

(** ** The parser *)

Section Parser.

Variable total_pages : Z.

Lemma isdigit_no_dash (t : string) :
  Py.isdigit t = true -> Py.contains "-" t = false.
Proof.
  intros H. apply all_digits_contains; [reflexivity|].
  now apply isdigit_all_digits.
Qed.

Lemma check_segment_ok (t : string) (seg seg' : Z * Z) :
  check_segment total_pages t seg = Ok seg' -> seg' = seg /\ valid_segment total_pages seg.
Proof.
  destruct seg as [s e]. unfold check_segment, valid_segment. simpl.
  destruct (s <? 1) eqn:E1; [discriminate|].
  destruct (e <? 1) eqn:E2; [discriminate|].
  destruct (e <? s) eqn:E3; [discriminate|].
  destruct (e >? total_pages) eqn:E4; [discriminate|]. simpl.
  intros H; inversion H; subst. split; [reflexivity|]. lia.
Qed.

Lemma check_segment_valid (t : string) (seg : Z * Z) :
  valid_segment total_pages seg -> check_segment total_pages t seg = Ok seg.
Proof.
  destruct seg as [s e]. unfold check_segment, valid_segment. simpl.
  intros (H1 & H2 & H3).
  replace (s <? 1) with false by lia. replace (e <? 1) with false by lia.
  replace (e <? s) with false by lia.
  replace (e >? total_pages) with false by lia. reflexivity.
Qed.

Lemma parse_token_denotes (t : string) (seg : Z * Z) :
  token_denotes t seg -> parse_token t total_pages = check_segment total_pages t seg.
Proof.
  intros [u Hu | a b Ha Hb]; unfold parse_token.
  - rewrite (isdigit_no_dash u Hu), Hu. reflexivity.
  - assert (Hc : Py.contains "-" (a ++ "-" ++ b) = true).
    { rewrite contains_append. simpl. apply orb_true_r. }
    rewrite Hc. change (a ++ "-" ++ b)%string with (a ++ String "-" b)%string.
    rewrite (split1_at "-" a b (isdigit_no_dash a Ha)), Ha, Hb. reflexivity.
Qed.

Lemma parse_token_ok (t : string) (seg : Z * Z) :
  parse_token t total_pages = Ok seg ->
  token_denotes t seg /\ valid_segment total_pages seg.
Proof.
  unfold parse_token.
  destruct (Py.contains "-" t) eqn:Hc.
  - destruct (split1_contains "-" t Hc) as (a & b & Hab). rewrite Hab.
    destruct (split1_two "-" t a b Hab) as [-> _].
    destruct (Py.isdigit a) eqn:Ha; [|discriminate].
    destruct (Py.isdigit b) eqn:Hb; [|discriminate].
    cbn [negb orb bind]. intros H.
    apply (check_segment_ok (a ++ String "-" b) (Py.int a, Py.int b)) in H
      as [-> Hv].
    split; [|assumption].
    change (a ++ String "-" b)%string with (a ++ "-" ++ b)%string.
    now constructor.
  - destruct (Py.isdigit t) eqn:Ht; [|discriminate].
    cbn [negb bind]. intros H.
    apply (check_segment_ok t (Py.int t, Py.int t)) in H as [-> Hv].
    split; [now constructor | assumption].
Qed.

Lemma good_token_parses (t : string) :
  good_token total_pages t <-> exists seg, parse_token t total_pages = Ok seg.
Proof.
  split.
  - intros (seg & Hd & Hv). exists seg.
    rewrite (parse_token_denotes t seg Hd). now apply check_segment_valid.
  - intros (seg & H). exists seg. now apply parse_token_ok.
Qed.

(** The accumulator of the loop only collects: the loop is a traversal of
    the tokens. *)
Lemma parse_loop_acc (tokens : list string) (segments : list (Z * Z)) :
  parse_loop tokens total_pages segments
  = (segs <- parse_loop tokens total_pages [] ;; Ok (segments ++ segs)).
Proof.
  revert segments; induction tokens as [|t ts IH]; intros segments; simpl.
  - now rewrite app_nil_r.
  - destruct (parse_token t total_pages) as [seg|e]; simpl; [|reflexivity].
    rewrite (IH (segments ++ [seg])), (IH [seg]).
    destruct (parse_loop ts total_pages []) as [segs|e]; simpl; [|reflexivity].
    now rewrite <- app_assoc.
Qed.

Lemma parse_loop_cons (t : string) (ts : list string) :
  parse_loop (t :: ts) total_pages []
  = (seg <- parse_token t total_pages ;;
     segs <- parse_loop ts total_pages [] ;; Ok (seg :: segs)).
Proof.
  simpl. destruct (parse_token t total_pages) as [seg|e]; simpl; [|reflexivity].
  now rewrite parse_loop_acc.
Qed.

Lemma parse_loop_ok (tokens : list string) (segs : list (Z * Z)) :
  parse_loop tokens total_pages [] = Ok segs ->
  Forall2 (fun t seg => parse_token t total_pages = Ok seg) tokens segs.
Proof.
  revert segs; induction tokens as [|t ts IH]; intros segs.
  - simpl. intros H; inversion H. constructor.
  - rewrite parse_loop_cons.
    destruct (parse_token t total_pages) as [seg|e] eqn:Ht; [|discriminate].
    cbn [bind].
    destruct (parse_loop ts total_pages []) as [rest|e]; [|discriminate].
    cbn [bind]. intros H; inversion H; subst. constructor; auto.
Qed.

(** The loop stops at the first token that raises. *)
Lemma parse_loop_first_error (pre post : list string) (t : string) (e : exn) :
  Forall (fun u => exists seg, parse_token u total_pages = Ok seg) pre ->
  parse_token t total_pages = Raise e ->
  parse_loop (pre ++ t :: post) total_pages [] = Raise e.
Proof.
  intros Hpre Ht. induction Hpre as [|u pre (seg & Hu) _ IH].
  - rewrite app_nil_l, parse_loop_cons, Ht. reflexivity.
  - change ((u :: pre) ++ t :: post) with (u :: (pre ++ t :: post)).
    rewrite parse_loop_cons, Hu, IH. reflexivity.
Qed.

End Parser.

Lemma nonempty_tokens_single (t : string) :
  Py.contains "," t = false -> t <> "" -> nonempty_tokens t = [t].
Proof.
  intros Hc Hne. unfold nonempty_tokens. rewrite split_absent by assumption.
  destruct t; [congruence | reflexivity].
Qed.

Lemma parse_single_token (t : string) (total_pages : Z) :
  Py.contains " " t = false -> Py.contains "," t = false -> t <> "" ->
  _parse_segments t total_pages
  = (seg <- parse_token t total_pages ;; Ok [seg]).
Proof.
  intros Hs Hc Hne. unfold _parse_segments.
  rewrite remove_absent by assumption.
  rewrite nonempty_tokens_single by assumption.
  destruct t; [congruence|]. cbn [Py.is_empty].
  rewrite parse_loop_cons. reflexivity.
Qed.

Lemma str_no_char (c : ascii) (n : Z) :
  Py.is_digit c = false -> 0 <= n -> Py.contains c (Py.str n) = false.
Proof.
  intros Hc Hn. apply all_digits_contains; [assumption|].
  now apply isdigit_all_digits, str_isdigit.
Qed.

Lemma tokens_nonempty_spec (spec : string) (pre post : list string) (t : string) :
  nonempty_tokens (Py.remove " " spec) = pre ++ t :: post ->
  Py.is_empty (Py.remove " " spec) = false.
Proof.
  destruct (Py.remove " " spec); [|reflexivity].
  unfold nonempty_tokens. simpl. intros H. now destruct pre.
Qed.

Lemma remove_spaces_equiv (s1 s2 : string) :
  differ_only_in_spaces s1 s2 -> Py.remove " " s1 = Py.remove " " s2.
Proof.
  induction 1 as [|c s1 s2 _ IH|s1 s2 _ IH|s1 s2 _ IH]; simpl; try assumption.
  - reflexivity.
  - destruct (Ascii.eqb c " "); congruence.
Qed.

Lemma remove_only_spaces (s : string) :
  only_spaces s = true -> Py.remove " " s = "".
Proof.
  induction s as [|c s IH]; simpl; [reflexivity|].
  destruct (Ascii.eqb c " "); [auto | discriminate].
Qed.

(** C1. When [_parse_segments] succeeds, its result has one segment per
    non-empty comma-separated token of the spec (spaces removed), in the
    order of the tokens, nothing merged and nothing dropped: a bare number
    [n] gives [(n, n)] and a range [a-b] gives [(a, b)]; the empty tokens of
    stray commas are not among the tokens. The decimal text of [n] parses to
    [(n, n)] and that of [a-b] to [(a, b)], and the two examples of the
    design document evaluate as it says. *)
Theorem C1_one_segment_per_token :
  (forall spec total_pages segs,
      _parse_segments spec total_pages = Ok segs ->
      Forall2 token_denotes (nonempty_tokens (Py.remove " " spec)) segs
      /\ List.length segs = List.length (nonempty_tokens (Py.remove " " spec)))
  /\ (forall spec, Forall (fun t => t <> "") (nonempty_tokens spec))
  /\ (forall n total_pages,
         1 <= n <= total_pages ->
         _parse_segments (Py.str n) total_pages = Ok [(n, n)])
  /\ (forall a b total_pages,
         1 <= a <= b -> b <= total_pages ->
         _parse_segments (Py.str a ++ "-" ++ Py.str b) total_pages
         = Ok [(a, b)])
  /\ _parse_segments "1,3-5,7" 10 = Ok [(1, 1); (3, 5); (7, 7)]
  /\ _parse_segments "1,,3" 5 = Ok [(1, 1); (3, 3)]
  /\ _parse_segments "2-4,3,3,1-4" 5 = Ok [(2, 4); (3, 3); (3, 3); (1, 4)].
Proof.
  split; [|split; [|split; [|split; [|repeat split]]]].
  - intros spec total_pages segs. unfold _parse_segments.
    destruct (Py.is_empty (Py.remove " " spec)); [discriminate|].
    intros H. apply parse_loop_ok in H.
    split.
    + eapply Forall2_impl; [|exact H].
      intros t seg Ht. now apply (parse_token_ok total_pages).
    + symmetry. eapply Forall2_length; exact H.
  - intros spec. unfold nonempty_tokens. apply Forall_forall.
    intros t Ht. apply filter_In in Ht as [_ Ht]. now destruct t.
  - intros n total_pages Hn.
    assert (Hd : Py.isdigit (Py.str n) = true) by (apply str_isdigit; lia).
    rewrite parse_single_token.
    + rewrite (parse_token_denotes total_pages (Py.str n)
                 (Py.int (Py.str n), Py.int (Py.str n)))
        by now constructor.
      rewrite int_str by lia.
      rewrite check_segment_valid; [reflexivity|].
      unfold valid_segment; simpl; lia.
    + apply str_no_char; [reflexivity | lia].
    + apply str_no_char; [reflexivity | lia].
    + now apply isdigit_nonempty.
  - intros a b total_pages Hab Hb.
    assert (Ha' : Py.isdigit (Py.str a) = true) by (apply str_isdigit; lia).
    assert (Hb' : Py.isdigit (Py.str b) = true) by (apply str_isdigit; lia).
    rewrite parse_single_token.
    + rewrite (parse_token_denotes total_pages _
                 (Py.int (Py.str a), Py.int (Py.str b)))
        by now constructor.
      rewrite !int_str by lia.
      rewrite check_segment_valid; [reflexivity|].
      unfold valid_segment; simpl; lia.
    + rewrite contains_append. simpl.
      rewrite !str_no_char by (reflexivity || lia). reflexivity.
    + rewrite contains_append. simpl.
      rewrite !str_no_char by (reflexivity || lia). reflexivity.
    + destruct (Py.str a); [discriminate Ha' | discriminate].
Qed.

Lemma C1_one_segment_per_token_witness :
  _parse_segments "4, 1-2,,2" 4 = Ok [(4, 4); (1, 2); (2, 2)]
  /\ Forall2 token_denotes ["4"; "1-2"; "2"] [(4, 4); (1, 2); (2, 2)].
Proof.
  split; [reflexivity|].
  exact (proj1 (proj1 C1_one_segment_per_token "4, 1-2,,2" 4
                  [(4, 4); (1, 2); (2, 2)] eq_refl)).
Defined.

(** C8, as the code has it. The parser first removes the space characters
    (U+0020): two specs that differ only in spaces, wherever they stand,
    parse to the same result, and a spec made of spaces only (or empty)
    raises [EmptySpec]. *)
Theorem C8_spaces_removed :
  (forall s1 s2 total_pages,
      differ_only_in_spaces s1 s2 ->
      _parse_segments s1 total_pages = _parse_segments s2 total_pages)
  /\ (forall s total_pages,
         only_spaces s = true -> _parse_segments s total_pages = Raise EmptySpec).
Proof.
  split.
  - intros s1 s2 total_pages H. unfold _parse_segments.
    now rewrite (remove_spaces_equiv s1 s2 H).
  - intros s total_pages H. unfold _parse_segments.
    now rewrite (remove_only_spaces s H).
Qed.

Lemma C8_spaces_removed_witness :
  _parse_segments " 1 , 3 - 5 " 10 = _parse_segments "1,3-5" 10
  /\ _parse_segments "   " 10 = Raise EmptySpec.
Proof.
  split.
  - apply (proj1 C8_spaces_removed).
    repeat first [apply dois_nil | apply dois_char | apply dois_left].
  - apply (proj2 C8_spaces_removed). reflexivity.
Defined.

(** C8 as worded does not hold: a tab is whitespace, yet a spec that is one
    tab raises [MalformedPageNumber] instead of [EmptySpec], and a tab after
    [1] changes the result. *)
Lemma C8_counterexample :
  only_whitespace (String "009" "") = true
  /\ _parse_segments (String "009" "") 10
     = Raise (MalformedPageNumber (String "009" ""))
  /\ _parse_segments (String "009" "") 10 <> Raise EmptySpec
  /\ _parse_segments "1" 10 = Ok [(1, 1)]
  /\ _parse_segments (String "1" (String "009" "")) 10
     = Raise (MalformedPageNumber (String "1" (String "009" ""))).
Proof.
  repeat split; try reflexivity. vm_compute. discriminate.
Qed.

(** ** Reading pages *)

Section Pages.

Context {Page : Type}.
Implicit Types (pages writer : list Page) (index : Z).

Lemma getitem_in_range pages index :
  0 <= index < Z.of_nat (List.length pages) ->
  exists page, getitem pages index = Ok page
               /\ nth_error pages (Z.to_nat index) = Some page.
Proof.
  intros H. unfold getitem. cbv zeta.
  replace (index <? 0) with false by lia. cbv iota.
  replace (index <? 0) with false by lia.
  replace (index >=? Z.of_nat (List.length pages)) with false by lia.
  cbn [orb].
  destruct (nth_error pages (Z.to_nat index)) as [page|] eqn:E.
  - exists page. split; reflexivity.
  - apply nth_error_None in E. lia.
Qed.

Lemma getitem_page_number pages k :
  1 <= k <= Z.of_nat (List.length pages) ->
  exists page, getitem pages (k - 1) = Ok page
               /\ page_number pages k = Some page.
Proof.
  intros H. destruct (getitem_in_range pages (k - 1)) as (page & Hg & Hn); [lia|].
  exists page. split; [assumption|]. unfold page_number.
  now replace (k <? 1) with false by lia.
Qed.

Lemma add_all_app pages writer : add_all pages writer = writer ++ pages.
Proof.
  unfold add_all. revert writer; induction pages as [|p ps IH]; intros w; simpl.
  - now rewrite app_nil_r.
  - rewrite IH, <- app_assoc. reflexivity.
Qed.

Lemma skipn_nth_error (l : list Page) (m : nat) (x : Page) :
  nth_error l m = Some x -> skipn m l = x :: skipn (S m) l.
Proof.
  revert l; induction m as [|m IH]; intros [|y l]; simpl; try discriminate.
  - intros H; inversion H; reflexivity.
  - intros H. now rewrite (IH l H).
Qed.

Lemma add_pages_seq pages (a : Z) (n k : nat) writer :
  0 <= a ->
  (Z.to_nat a + k + n <= List.length pages)%nat ->
  add_pages pages (map (fun i => a + Z.of_nat i) (seq k n)) writer
  = Ok (writer ++ firstn n (skipn (Z.to_nat a + k) pages)).
Proof.
  intros Ha. revert k writer; induction n as [|n IH]; intros k writer Hlen.
  - simpl. now rewrite app_nil_r.
  - cbn [seq map add_pages].
    destruct (getitem_in_range pages (a + Z.of_nat k)) as (page & Hg & Hn);
      [lia|].
    rewrite Hg. cbn [bind].
    replace (Z.to_nat (a + Z.of_nat k)) with (Z.to_nat a + k)%nat in Hn by lia.
    rewrite (skipn_nth_error pages _ page Hn). cbn [firstn].
    rewrite IH by lia.
    replace (Z.to_nat a + S k)%nat with (S (Z.to_nat a + k)) by lia.
    now rewrite <- app_assoc.
Qed.

(** The pages added for a valid segment are the pages of the segment. *)
Lemma add_pages_segment pages (seg : Z * Z) :
  valid_segment (Z.of_nat (List.length pages)) seg ->
  add_pages pages (Py.range (fst seg - 1) (snd seg)) []
  = Ok (pages_of_segment pages (fst seg) (snd seg)).
Proof.
  destruct seg as [s e]. unfold valid_segment. cbn [fst snd].
  intros (H1 & H2 & H3). unfold Py.range, pages_of_segment.
  rewrite add_pages_seq by lia. cbn [app].
  replace (Z.to_nat (s - 1) + 0)%nat with (Z.to_nat (s - 1)) by lia.
  now replace (e - (s - 1)) with (e - s + 1) by lia.
Qed.

(** [pages_of_segment] is the run of pages numbered [start] to [end_]. *)
Lemma pages_of_segment_length pages (start end_ : Z) :
  valid_segment (Z.of_nat (List.length pages)) (start, end_) ->
  Z.of_nat (List.length (pages_of_segment pages start end_))
  = end_ - start + 1.
Proof.
  unfold valid_segment, pages_of_segment. cbn [fst snd]. intros (H1 & H2 & H3).
  rewrite length_firstn, length_skipn. lia.
Qed.

Lemma pages_of_segment_nth pages (start end_ k : Z) :
  valid_segment (Z.of_nat (List.length pages)) (start, end_) ->
  start <= k <= end_ ->
  nth_error (pages_of_segment pages start end_) (Z.to_nat (k - start))
  = page_number pages k.
Proof.
  unfold valid_segment, pages_of_segment, page_number. cbn [fst snd].
  intros (H1 & H2 & H3) Hk.
  replace (k <? 1) with false by lia.
  rewrite nth_error_firstn.
  replace (Z.to_nat (k - start) <? Z.to_nat (end_ - start + 1))%nat with true
    by (symmetry; apply Nat.ltb_lt; lia).
  rewrite nth_error_skipn. f_equal. lia.
Qed.

Lemma range_bounds (a b p : Z) : In p (Py.range a b) -> a <= p < b.
Proof.
  unfold Py.range. intros H. apply in_map_iff in H as (i & <- & Hi).
  apply in_seq in Hi. lia.
Qed.

End Pages.

(** ** Output names *)

Lemma base_name_extension (b ext : string) :
  Py.contains "." ext = false -> base_name (b ++ "." ++ ext) = b.
Proof.
  intros H. unfold base_name, Py.rsplit1_head.
  rewrite contains_append. simpl. rewrite orb_true_r.
  change (b ++ String "." ext)%string with (b ++ String "."%char ext)%string.
  now rewrite before_last_at.
Qed.

Lemma base_name_no_extension (f : string) :
  Py.contains "." f = false -> base_name f = f.
Proof. intros H. unfold base_name. now rewrite H. Qed.

Lemma str_dash_str (a b a' b' : Z) :
  0 <= a -> 0 <= b -> 0 <= a' -> 0 <= b' ->
  (Py.str a ++ "-" ++ Py.str b)%string = (Py.str a' ++ "-" ++ Py.str b')%string ->
  a = a' /\ b = b'.
Proof.
  intros Ha Hb Ha' Hb' H.
  assert (E : Py.split1 "-" (Py.str a ++ String "-" (Py.str b))
              = Py.split1 "-" (Py.str a' ++ String "-" (Py.str b')))
    by (f_equal; exact H).
  rewrite !split1_at in E by (apply str_no_char; [reflexivity | assumption]).
  inversion E. split; apply str_inj; assumption.
Qed.

(** Distinct segments get distinct names. *)
Lemma out_name_inj (base : string) (s e s' e' : Z) :
  1 <= s -> 1 <= e -> 1 <= s' -> 1 <= e' ->
  out_name base s e = out_name base s' e' -> s = s' /\ e = e'.
Proof.
  intros Hs He Hs' He'. unfold out_name.
  destruct (Z.eqb_spec s e) as [<-|N]; destruct (Z.eqb_spec s' e') as [<-|N'];
    intros H; apply append_inv_head in H; simpl in H; inversion H as [H'];
    clear H.
  - apply append_inv_tail in H'. apply str_inj in H'; [auto | lia | lia].
  - exfalso.
    change (Py.str s' ++ String "-" (Py.str e' ++ ".pdf"))%string
      with (Py.str s' ++ ("-" ++ Py.str e') ++ ".pdf")%string in H'.
    rewrite <- append_assoc in H'. apply append_inv_tail in H'.
    apply (f_equal (Py.contains "-")) in H'.
    rewrite contains_append, !str_no_char in H' by (reflexivity || lia).
    simpl in H'. discriminate.
  - exfalso.
    change (Py.str s ++ String "-" (Py.str e ++ ".pdf"))%string
      with (Py.str s ++ ("-" ++ Py.str e) ++ ".pdf")%string in H'.
    rewrite <- append_assoc in H'. apply append_inv_tail in H'.
    apply (f_equal (Py.contains "-")) in H'.
    rewrite contains_append, !str_no_char in H' by (reflexivity || lia).
    simpl in H'. discriminate.
  - change (Py.str s ++ String "-" (Py.str e ++ ".pdf"))%string
      with (Py.str s ++ ("-" ++ Py.str e) ++ ".pdf")%string in H'.
    change (Py.str s' ++ String "-" (Py.str e' ++ ".pdf"))%string
      with (Py.str s' ++ ("-" ++ Py.str e') ++ ".pdf")%string in H'.
    rewrite <- (append_assoc (Py.str s) ("-" ++ Py.str e) ".pdf"),
      <- (append_assoc (Py.str s') ("-" ++ Py.str e') ".pdf") in H'.
    apply append_inv_tail in H'.
    apply str_dash_str in H'; lia.
Qed.

(** ** The operations *)

Section Operations.

Context {File Page Bytes : Type}.
Variable PdfReader : File -> result (list Page).
Variable write : list Page -> Bytes.

Lemma split_loop_valid (pages : list Page) (base : string)
    (segs : list (Z * Z)) (created : list (string * Bytes)) :
  Forall (valid_segment (Z.of_nat (List.length pages))) segs ->
  split_loop write pages base segs created
  = Ok (created ++ map (split_output write pages base) segs).
Proof.
  intros H. revert created; induction H as [|[s e] segs Hv _ IH];
    intros created.
  - simpl. now rewrite app_nil_r.
  - cbn [split_loop map].
    pose proof (add_pages_segment pages (s, e) Hv) as Ha.
    cbn [fst snd] in Ha. rewrite Ha. cbn [bind].
    rewrite IH, <- app_assoc. reflexivity.
Qed.

Lemma parse_segments_valid (spec : string) (total_pages : Z)
    (segs : list (Z * Z)) :
  _parse_segments spec total_pages = Ok segs ->
  Forall (valid_segment total_pages) segs.
Proof.
  unfold _parse_segments.
  destruct (Py.is_empty (Py.remove " " spec)); [discriminate|].
  intros H. apply parse_loop_ok in H.
  induction H as [|t seg ts segs Ht _ IH]; constructor; [|assumption].
  now apply (parse_token_ok total_pages t).
Qed.

Lemma split_pdf_parsed (file : File) (pages : list Page)
    (spec filename : string) (segs : list (Z * Z)) :
  PdfReader file = Ok pages ->
  _parse_segments spec (Z.of_nat (List.length pages)) = Ok segs ->
  split_pdf PdfReader write file spec filename
  = Ok (map (split_output write pages (base_name filename)) segs).
Proof.
  intros Hr Hp. unfold split_pdf. rewrite Hr. cbn [bind]. rewrite Hp.
  cbn [bind]. rewrite split_loop_valid by (eapply parse_segments_valid; eauto).
  reflexivity.
Qed.

(** The parser raises nothing but [ValueError]. *)
Lemma parse_token_raises (t : string) (total_pages : Z) (e : exn) :
  parse_token t total_pages = Raise e -> exists msg, e = ValueError msg.
Proof.
  assert (Hcheck : forall seg,
             check_segment total_pages t seg = Raise e ->
             exists msg, e = ValueError msg).
  { intros [s n]. unfold check_segment.
    destruct ((s <? 1) || (n <? 1) || (n <? s)); [is_value_error|].
    destruct (n >? total_pages); [is_value_error | discriminate]. }
  unfold parse_token.
  destruct (Py.contains "-" t).
  - destruct (Py.split1 "-" t) as [|a [|b [|c l]]]; cbn [bind];
      [is_value_error | is_value_error | | is_value_error].
    destruct (negb (Py.isdigit a) || negb (Py.isdigit b)); cbn [bind];
      [is_value_error|].
    apply (Hcheck (Py.int a, Py.int b)).
  - destruct (negb (Py.isdigit t)); cbn [bind]; [is_value_error|].
    apply (Hcheck (Py.int t, Py.int t)).
Qed.

Lemma parse_segments_raises (spec : string) (total_pages : Z) (e : exn) :
  _parse_segments spec total_pages = Raise e -> exists msg, e = ValueError msg.
Proof.
  unfold _parse_segments.
  destruct (Py.is_empty (Py.remove " " spec)); [is_value_error|].
  induction (nonempty_tokens (Py.remove " " spec)) as [|t ts IH].
  - discriminate.
  - rewrite parse_loop_cons.
    destruct (parse_token t total_pages) as [seg|e'] eqn:Ht; cbn [bind].
    + destruct (parse_loop ts total_pages []) as [segs|e'']; cbn [bind];
        [discriminate|].
      intros H; inversion H; subst. now apply IH.
    + intros H; inversion H; subst. eapply parse_token_raises; eauto.
Qed.

End Operations.

Section Extract.

Context {Page : Type}.
Variable pages : list Page.
Let total : Z := Z.of_nat (List.length pages).

(** The loop of [extract_pages] passes over good tokens, adding the page
    each one names. *)
Lemma extract_loop_good (pre : list string) :
  Forall (good_page_token total) pre ->
  exists out,
    Forall2 (fun t page => page_number pages (Py.int t) = Some page) pre out
    /\ forall rest writer,
        extract_loop pages total (pre ++ rest) writer
        = extract_loop pages total rest (writer ++ out).
Proof.
  induction 1 as [|t pre [Hd Hr] _ (out & Hout & IH)].
  - exists []. split; [constructor|]. intros rest writer.
    now rewrite app_nil_r.
  - destruct (getitem_page_number pages (Py.int t) Hr) as (page & Hg & Hn).
    exists (page :: out). split; [now constructor|].
    intros rest writer.
    change ((t :: pre) ++ rest) with (t :: (pre ++ rest)).
    cbn [extract_loop]. rewrite Hd. cbn [negb].
    replace (Py.int t <? 1) with false by lia.
    replace (Py.int t >? total) with false by lia. cbn [orb].
    rewrite Hg. cbn [bind]. rewrite IH, <- app_assoc. reflexivity.
Qed.

Lemma extract_loop_raises (tokens : list string) (writer : list Page) (e : exn) :
  extract_loop pages total tokens writer = Raise e ->
  exists msg, e = ValueError msg.
Proof.
  revert writer; induction tokens as [|t ts IH]; intros writer;
    cbn [extract_loop]; [discriminate|].
  destruct (negb (Py.isdigit t));
    [intros H; inversion H; eexists; reflexivity|].
  destruct ((Py.int t <? 1) || (Py.int t >? total)) eqn:G;
    [intros H; inversion H; eexists; reflexivity|].
  apply orb_false_elim in G as [G1 G2].
  destruct (getitem_page_number pages (Py.int t)) as (page & Hg & _);
    [unfold total in *; lia|].
  rewrite Hg. cbn [bind]. apply IH.
Qed.

End Extract.

Lemma only_whitespace_strip (s : string) :
  only_whitespace s = true -> Py.strip s = "".
Proof.
  unfold Py.strip. induction s as [|c s IH]; simpl; [reflexivity|].
  destruct (Py.is_space c); [auto | discriminate].
Qed.

Lemma merge_loop_decoded {File Page : Type}
    (PdfReader : File -> result (list Page))
    (files : list File) (docs : list (list Page)) (writer : list Page) :
  Forall2 (fun f d => PdfReader f = Ok d) files docs ->
  merge_loop PdfReader files writer = Ok (writer ++ List.concat docs).
Proof.
  intros H. revert writer; induction H as [|f d files docs Hf _ IH];
    intros writer; cbn [merge_loop List.concat].
  - now rewrite app_nil_r.
  - rewrite Hf. cbn [bind]. rewrite IH, add_all_app, <- app_assoc. reflexivity.
Qed.

(** ** The claims about the operations *)

Section Claims.

Context {File Page Bytes : Type}.
Variable PdfReader : File -> result (list Page).
Variable write : list Page -> Bytes.

(** C3, as the code has it. For a file that decodes to [pages] and a spec
    that parses into the segments [segs], [split_pdf] returns one output
    per segment, in the order of the segments; the output for
    [(start, end_)] is written from exactly the pages [start..end_] of the
    source in order, and its name is [<base>_p<start>.pdf] when
    [start = end_] and [<base>_p<start>-<end_>.pdf] otherwise, where
    [<base>] is the file name up to its last dot when it has one and the
    whole file name when it has none. *)
Theorem C3_split_outputs
    (file : File) (pages : list Page) (spec filename : string)
    (segs : list (Z * Z)) :
  PdfReader file = Ok pages ->
  _parse_segments spec (Z.of_nat (List.length pages)) = Ok segs ->
  (exists outs,
      split_pdf PdfReader write file spec filename = Ok outs
      /\ List.length outs = List.length segs
      /\ Forall2
           (fun seg out =>
              let base := base_name filename in
              let start := fst seg in
              let end_ := snd seg in
              snd out = write (pages_of_segment pages start end_)
              /\ Z.of_nat (List.length (pages_of_segment pages start end_))
                 = end_ - start + 1
              /\ (forall k, start <= k <= end_ ->
                            nth_error (pages_of_segment pages start end_)
                              (Z.to_nat (k - start))
                            = page_number pages k)
              /\ (start = end_ ->
                  fst out = (base ++ "_p" ++ Py.str start ++ ".pdf")%string)
              /\ (start <> end_ ->
                  fst out = (base ++ "_p" ++ Py.str start ++ "-"
                             ++ Py.str end_ ++ ".pdf")%string))
           segs outs)
  /\ (forall b ext, filename = (b ++ "." ++ ext)%string ->
                    Py.contains "." ext = false -> base_name filename = b)
  /\ (Py.contains "." filename = false -> base_name filename = filename).
Proof.
  intros Hr Hp. split; [|split].
  - exists (map (split_output write pages (base_name filename)) segs).
    split; [now apply split_pdf_parsed|].
    split; [apply length_map|].
    pose proof (parse_segments_valid spec _ segs Hp) as Hv.
    clear Hp. induction Hv as [|[s e] segs Hv _ IH]; cbn [map];
      constructor; [|assumption].
    cbn [split_output fst snd]. split; [reflexivity|].
    split; [now apply pages_of_segment_length|].
    split; [intros k Hk; now apply pages_of_segment_nth|].
    unfold out_name. split; intros Hse.
    + subst. now rewrite Z.eqb_refl.
    + apply Z.eqb_neq in Hse. now rewrite Hse.
  - intros b ext -> Hext. now apply base_name_extension.
  - apply base_name_no_extension.
Qed.

(** C7, as the code has it. The names of the outputs of one successful
    split are pairwise distinct exactly when the parsed segments are:
    segments that overlap without being equal get different names, and a
    segment listed twice gives two outputs of the same name. *)
Theorem C7_names_distinct_iff_segments_distinct
    (file : File) (pages : list Page) (spec filename : string)
    (segs : list (Z * Z)) (outs : list (string * Bytes)) :
  PdfReader file = Ok pages ->
  _parse_segments spec (Z.of_nat (List.length pages)) = Ok segs ->
  split_pdf PdfReader write file spec filename = Ok outs ->
  NoDup (map fst outs) <-> NoDup segs.
Proof.
  intros Hr Hp Hs. rewrite (split_pdf_parsed PdfReader write _ _ _ _ _ Hr Hp) in Hs.
  inversion Hs; subst outs; clear Hs.
  rewrite map_map. cbn [split_output fst].
  split; [apply NoDup_map_inv|].
  apply NoDup_map_NoDup_ForallPairs.
  pose proof (parse_segments_valid spec _ segs Hp) as Hv.
  rewrite Forall_forall in Hv.
  intros [s e] [s' e'] Hin Hin' Heq. cbn [fst snd] in Heq.
  apply Hv in Hin, Hin'. unfold valid_segment in Hin, Hin'.
  cbn [fst snd] in Hin, Hin'.
  apply out_name_inj in Heq; [|lia..]. destruct Heq; congruence.
Qed.

(** C5. For files that decode, [merge_pdfs] returns one output, written
    from the pages of the documents put one after the other in the order of
    the files, each document's pages in their own order; for two documents
    of [A] and [B] pages these are the first document's pages followed by
    the second's, [A + B] pages in all. *)
Theorem C5_merge_concatenates :
  (forall (files : list File) (docs : list (list Page)),
      Forall2 (fun f d => PdfReader f = Ok d) files docs ->
      merge_pdfs PdfReader write files = Ok (write (List.concat docs)))
  /\ (forall (f1 f2 : File) (d1 d2 : list Page),
         PdfReader f1 = Ok d1 -> PdfReader f2 = Ok d2 ->
         merge_pdfs PdfReader write [f1; f2] = Ok (write (d1 ++ d2))
         /\ List.length (d1 ++ d2) = (List.length d1 + List.length d2)%nat).
Proof.
  assert (Hall : forall files docs,
             Forall2 (fun f d => PdfReader f = Ok d) files docs ->
             merge_pdfs PdfReader write files = Ok (write (List.concat docs))).
  { intros files docs H. unfold merge_pdfs.
    rewrite (merge_loop_decoded PdfReader files docs [] H). reflexivity. }
  split; [exact Hall|].
  intros f1 f2 d1 d2 H1 H2. split; [|apply length_app].
  rewrite (Hall [f1; f2] [d1; d2]) by (repeat constructor; assumption).
  cbn [List.concat]. now rewrite app_nil_r.
Qed.

(** C10. With no file at all [merge_pdfs] does not raise: it returns what
    [write] makes of a writer to which no page was added. *)
Theorem C10_merge_of_nothing :
  merge_pdfs PdfReader write [] = Ok (write [])
  /\ merge_loop PdfReader [] [] = Ok [].
Proof. split; reflexivity. Qed.

(** C6, as the code has it. When the page list is empty or made of
    whitespace only, the handler of the extract button shows
    [NoPagesSpecified] ("Please enter at least one page number.") and does
    not call [extract_pages]; what it shows differs from what it shows for a
    malformed token. *)
Theorem C6_empty_page_list_rejected_by_handler
    (file : File) (extract_pages_input : string) :
  only_whitespace extract_pages_input = true ->
  extract_btn PdfReader write file extract_pages_input = NoPagesSpecified
  /\ forall t, @NoPagesSpecified Bytes <> StErrorExn (MalformedPageNumber t).
Proof.
  intros H. split; [|discriminate].
  unfold extract_btn. rewrite (only_whitespace_strip _ H). cbn [Py.is_empty].
  now rewrite orb_true_r.
Qed.

End Claims.

(** ** The claims at concrete inputs *)

Lemma C3_split_outputs_witness :
  Demo.reader [10; 20; 30]%nat = Ok [10; 20; 30]%nat
  /\ _parse_segments "1,2-3" 3 = Ok [(1, 1); (2, 3)]
  /\ exists outs,
      Demo.split [10; 20; 30]%nat "1,2-3" "doc.pdf" = Ok outs
      /\ List.length outs = 2%nat.
Proof.
  split; [reflexivity|]. split; [reflexivity|].
  destruct (C3_split_outputs Demo.reader Demo.writer
              [10; 20; 30]%nat [10; 20; 30]%nat "1,2-3" "doc.pdf"
              [(1, 1); (2, 3)] eq_refl eq_refl)
    as [(outs & Ho & Hl & _) _].
  exists outs. split; assumption.
Defined.

(** C3 as worded does not hold: the names the code gives end in [.pdf]. *)
Lemma C3_counterexample :
  Demo.split [10; 20; 30]%nat "1,2-3" "doc.pdf"
  = Ok [("doc_p1.pdf", [10]%nat); ("doc_p2-3.pdf", [20; 30]%nat)]
  /\ name_without_extension (base_name "doc.pdf") 1 1 = "doc_p1"
  /\ name_without_extension (base_name "doc.pdf") 2 3 = "doc_p2-3"
  /\ ~ (exists outs,
           Demo.split [10; 20; 30]%nat "1,2-3" "doc.pdf" = Ok outs
           /\ map fst outs
              = [name_without_extension (base_name "doc.pdf") 1 1;
                 name_without_extension (base_name "doc.pdf") 2 3]).
Proof.
  repeat split.
  intros (outs & Ho & Hn). vm_compute in Ho. inversion Ho; subst outs.
  vm_compute in Hn. discriminate.
Qed.

Lemma C7_names_distinct_iff_segments_distinct_witness :
  Demo.reader [10; 20; 30]%nat = Ok [10; 20; 30]%nat
  /\ _parse_segments "1-3,2-3,2" 3 = Ok [(1, 3); (2, 3); (2, 2)]
  /\ Demo.split [10; 20; 30]%nat "1-3,2-3,2" "doc.pdf"
     = Ok [("doc_p1-3.pdf", [10; 20; 30]%nat); ("doc_p2-3.pdf", [20; 30]%nat);
           ("doc_p2.pdf", [20]%nat)]
  /\ NoDup ["doc_p1-3.pdf"; "doc_p2-3.pdf"; "doc_p2.pdf"].
Proof.
  split; [reflexivity|]. split; [reflexivity|]. split; [reflexivity|].
  refine (proj2 (C7_names_distinct_iff_segments_distinct Demo.reader Demo.writer
                   [10; 20; 30]%nat [10; 20; 30]%nat "1-3,2-3,2" "doc.pdf"
                   [(1, 3); (2, 3); (2, 2)] _ eq_refl eq_refl eq_refl) _).
  repeat constructor; simpl; intuition congruence.
Defined.

(** C7 as worded does not hold: a segment listed twice gives two outputs of
    one name. *)
Lemma C7_counterexample :
  Demo.split [10; 20; 30]%nat "1,1" "doc.pdf"
  = Ok [("doc_p1.pdf", [10]%nat); ("doc_p1.pdf", [10]%nat)]
  /\ ~ NoDup (map fst [("doc_p1.pdf", [10]%nat); ("doc_p1.pdf", [10]%nat)]).
Proof.
  split; [reflexivity|]. simpl. intros H. inversion H as [|x l Hin _]; subst.
  apply Hin. now left.
Qed.

Lemma C5_merge_concatenates_witness :
  Demo.merge [[1; 2]; [7; 8; 9]]%nat = Ok [1; 2; 7; 8; 9]%nat
  /\ List.length ([1; 2] ++ [7; 8; 9])%nat = (2 + 3)%nat.
Proof.
  apply (proj2 (C5_merge_concatenates Demo.reader Demo.writer)
           [1; 2]%nat [7; 8; 9]%nat [1; 2]%nat [7; 8; 9]%nat); reflexivity.
Defined.

Lemma C6_empty_page_list_rejected_by_handler_witness :
  only_whitespace "   " = true
  /\ Demo.extract_button [10; 20; 30]%nat "   " = NoPagesSpecified.
Proof.
  split; [reflexivity|].
  apply (C6_empty_page_list_rejected_by_handler Demo.reader Demo.writer).
  reflexivity.
Defined.

(** C6 as worded does not hold: on a page list without tokens
    [extract_pages] raises nothing and returns an output of no page. *)
Lemma C6_counterexample :
  page_tokens "" = []
  /\ Demo.extract [10; 20; 30]%nat "" = Ok []
  /\ page_tokens " , ," = []
  /\ Demo.extract [10; 20; 30]%nat " , ," = Ok [].
Proof. repeat split. Qed.

(** The guard of the handler looks at whitespace only: a page list of
    separators reaches [extract_pages] and an output of no page is offered
    for download. *)
Example extract_button_separators :
  Demo.extract_button [10; 20; 30]%nat "," = StDownload [] "extracted.pdf".
Proof. reflexivity. Qed.

(** * Further properties of the code *)

(** ** The parser *)

Lemma parse_loop_complete (total_pages : Z) (tokens : list string)
    (segs : list (Z * Z)) :
  Forall2 (fun t seg => parse_token t total_pages = Ok seg) tokens segs ->
  parse_loop tokens total_pages [] = Ok segs.
Proof.
  induction 1 as [|t seg ts segs Ht _ IH]; [reflexivity|].
  rewrite parse_loop_cons, Ht. cbn [bind]. rewrite IH. reflexivity.
Qed.

Lemma is_empty_false (s : string) : Py.is_empty s = false <-> s <> "".
Proof. destruct s; simpl; split; congruence. Qed.

(** In the model, [_parse_segments] succeeds with [segs] exactly when the
    spec has a character other than a space and the segments are, token by
    token and in order, what the non-empty tokens stand for, each one inside
    the document. *)
Lemma parse_model_ok_iff (spec : string) (total_pages : Z)
    (segs : list (Z * Z)) :
  _parse_segments spec total_pages = Ok segs
  <-> Py.remove " " spec <> ""
      /\ Forall2 (fun t seg => token_denotes t seg
                               /\ valid_segment total_pages seg)
           (nonempty_tokens (Py.remove " " spec)) segs.
Proof.
  unfold _parse_segments. split.
  - destruct (Py.is_empty (Py.remove " " spec)) eqn:E; [discriminate|].
    intros H. split; [now apply is_empty_false|].
    apply parse_loop_ok in H. eapply Forall2_impl; [|exact H].
    intros t seg Ht. now apply parse_token_ok.
  - intros [Hne H]. apply is_empty_false in Hne. rewrite Hne.
    apply parse_loop_complete. eapply Forall2_impl; [|exact H].
    intros t seg [Hd Hv]. rewrite (parse_token_denotes total_pages t seg Hd).
    now apply check_segment_valid.
Qed.

Lemma only_spaces_remove (s : string) :
  only_spaces s = true <-> Py.remove " " s = "".
Proof.
  induction s as [|c s IH]; simpl; [tauto|].
  destruct (Ascii.eqb c " "); simpl; [exact IH|]. split; discriminate.
Qed.

Lemma parse_token_not_empty_spec (t : string) (total_pages : Z) :
  parse_token t total_pages <> Raise EmptySpec.
Proof.
  assert (Hcheck : forall seg,
             check_segment total_pages t seg <> Raise EmptySpec).
  { intros [s n]. unfold check_segment.
    destruct ((s <? 1) || (n <? 1) || (n <? s)); [discriminate|].
    destruct (n >? total_pages); discriminate. }
  unfold parse_token.
  destruct (Py.contains "-" t).
  - destruct (Py.split1 "-" t) as [|a [|b [|c l]]]; cbn [bind];
      try discriminate.
    destruct (negb (Py.isdigit a) || negb (Py.isdigit b)); cbn [bind];
      [discriminate|].
    apply (Hcheck (Py.int a, Py.int b)).
  - destruct (negb (Py.isdigit t)); cbn [bind]; [discriminate|].
    apply (Hcheck (Py.int t, Py.int t)).
Qed.

Lemma parse_loop_not_empty_spec (tokens : list string) (total_pages : Z) :
  parse_loop tokens total_pages [] <> Raise EmptySpec.
Proof.
  induction tokens as [|t ts IH]; [discriminate|].
  rewrite parse_loop_cons.
  destruct (parse_token t total_pages) as [seg|e] eqn:Ht; cbn [bind].
  - destruct (parse_loop ts total_pages []) as [segs|e]; cbn [bind];
      [discriminate | exact IH].
  - intros H. inversion H; subst.
    exact (parse_token_not_empty_spec t total_pages Ht).
Qed.

(** X2. [_parse_segments] raises "No ranges provided." exactly when the spec is
    empty or made of spaces only; no token error has that message. *)
Theorem parse_segments_empty_spec_iff (spec : string) (total_pages : Z) :
  _parse_segments spec total_pages = Raise EmptySpec
  <-> only_spaces spec = true.
Proof.
  rewrite only_spaces_remove. unfold _parse_segments.
  destruct (Py.remove " " spec) as [|c r] eqn:E; cbn [Py.is_empty].
  - tauto.
  - split; [|discriminate]. intros H.
    now apply parse_loop_not_empty_spec in H.
Qed.

Lemma nonempty_tokens_nil (s : string) :
  nonempty_tokens s = [] <-> only_commas s = true.
Proof.
  unfold nonempty_tokens. induction s as [|x s IH]; simpl; [tauto|].
  destruct (Ascii.eqb x ","); simpl; [exact IH|].
  destruct (Py.split "," s) as [|t ts]; simpl; split; discriminate.
Qed.

(** X3. [_parse_segments] returns the empty list, without raising, exactly
    when the spec, spaces removed, is one or more commas and nothing else;
    [split_pdf] then returns no file at all. *)
Theorem parse_segments_no_segment_iff :
  (forall spec total_pages,
      _parse_segments spec total_pages = Ok []
      <-> Py.remove " " spec <> ""
          /\ only_commas (Py.remove " " spec) = true)
  /\ (forall (File Page Bytes : Type) (PdfReader : File -> result (list Page))
             (write : list Page -> Bytes) file pages spec filename,
         PdfReader file = Ok pages ->
         Py.remove " " spec <> "" ->
         only_commas (Py.remove " " spec) = true ->
         split_pdf PdfReader write file spec filename = Ok []).
Proof.
  assert (Hiff : forall spec total_pages,
             _parse_segments spec total_pages = Ok []
             <-> Py.remove " " spec <> ""
                 /\ only_commas (Py.remove " " spec) = true).
  { intros spec total_pages. rewrite parse_model_ok_iff.
    rewrite <- nonempty_tokens_nil. split; intros [Hne H]; split; auto.
    - now inversion H.
    - rewrite H. constructor. }
  split; [exact Hiff|].
  intros File Page Bytes PdfReader write file pages spec filename Hr Hne Hc.
  rewrite (split_pdf_parsed PdfReader write file pages spec filename [] Hr);
    [reflexivity|].
  apply Hiff. now split.
Qed.

Lemma parse_segments_no_segment_iff_witness :
  _parse_segments " , ,," 7 = Ok []
  /\ Demo.split [10; 20; 30]%nat " , ,," "doc.pdf" = Ok [].
Proof.
  split.
  - apply (proj1 parse_segments_no_segment_iff). split;
      [discriminate | reflexivity].
  - apply (proj2 parse_segments_no_segment_iff _ _ _ Demo.reader Demo.writer
             [10; 20; 30]%nat [10; 20; 30]%nat);
      [reflexivity | discriminate | reflexivity].
Defined.

(** X4. Every segment [_parse_segments] returns lies inside the document:
    [1 <= start <= end_ <= total_pages]. For a document without pages the
    only successful result is the empty list. *)
Theorem parse_segments_inside_document (spec : string) (total_pages : Z)
    (segs : list (Z * Z)) :
  _parse_segments spec total_pages = Ok segs ->
  (forall start end_,
      In (start, end_) segs ->
      1 <= start /\ start <= end_ /\ end_ <= total_pages)
  /\ (total_pages < 1 -> segs = []).
Proof.
  intros H. apply parse_model_ok_iff in H as [_ H].
  assert (Hv : Forall (valid_segment total_pages) segs).
  { induction H as [|t seg ts segs [_ Hv] _ IH]; constructor; assumption. }
  split.
  - intros start end_ Hin. rewrite Forall_forall in Hv.
    exact (Hv (start, end_) Hin).
  - intros Hz. destruct segs as [|[s e] segs]; [reflexivity|].
    inversion Hv as [|x l Hse _]; subst. unfold valid_segment in Hse.
    cbn [fst snd] in Hse. lia.
Qed.

Lemma parse_segments_inside_document_witness :
  _parse_segments "2-4,9" 9 = Ok [(2, 4); (9, 9)]
  /\ (1 <= 2 /\ 2 <= 4 /\ 4 <= 9).
Proof.
  split; [reflexivity|].
  apply (proj1 (parse_segments_inside_document "2-4,9" 9 [(2, 4); (9, 9)]
                  eq_refl)).
  left; reflexivity.
Defined.

Lemma int_leading_zero (t : string) : Py.int (String "0" t) = Py.int t.
Proof. reflexivity. Qed.

Lemma isdigit_leading_zero (t : string) :
  Py.isdigit t = true -> Py.isdigit (String "0" t) = true.
Proof. intros H. simpl. now apply isdigit_all_digits. Qed.

Lemma token_denotes_leading_zero (t : string) (seg : Z * Z) :
  token_denotes t seg -> token_denotes (String "0" t) seg.
Proof.
  intros [u Hu | a b Ha Hb].
  - rewrite <- (int_leading_zero u).
    constructor. now apply isdigit_leading_zero.
  - rewrite <- (int_leading_zero a).
    change (String "0" (a ++ "-" ++ b))%string
      with ((String "0" a) ++ "-" ++ b)%string.
    constructor; [now apply isdigit_leading_zero | assumption].
Qed.

(** ** Splitting and extracting *)

Section MoreOperations.

Context {File Page Bytes : Type}.
Variable PdfReader : File -> result (list Page).
Variable write : list Page -> Bytes.

(** X6. For a file that decodes, [split_pdf] raises exactly what
    [_parse_segments] raises on the spec against the page count of the
    file, and raises nothing when the spec parses: it then returns as many
    files as there are segments. *)
Theorem split_pdf_raises_iff
    (file : File) (pages : list Page) (spec filename : string) :
  PdfReader file = Ok pages ->
  (forall e,
      split_pdf PdfReader write file spec filename = Raise e
      <-> _parse_segments spec (Z.of_nat (List.length pages)) = Raise e)
  /\ (forall outs,
         split_pdf PdfReader write file spec filename = Ok outs ->
         exists segs,
           _parse_segments spec (Z.of_nat (List.length pages)) = Ok segs
           /\ List.length outs = List.length segs).
Proof.
  intros Hr.
  destruct (_parse_segments spec (Z.of_nat (List.length pages)))
    as [segs|e'] eqn:Hp.
  - rewrite (split_pdf_parsed PdfReader write _ _ _ filename _ Hr Hp).
    split.
    + intros e. split; discriminate.
    + intros outs H. inversion H; subst. exists segs.
      split; [reflexivity | apply length_map].
  - assert (Hs : split_pdf PdfReader write file spec filename = Raise e').
    { unfold split_pdf. rewrite Hr. cbn [bind]. rewrite Hp. reflexivity. }
    rewrite Hs. split.
    + intros e. split; intros H; inversion H; reflexivity.
    + discriminate.
Qed.

Lemma extract_loop_ok_good (pages : list Page) (tokens : list string)
    (writer out : list Page) :
  extract_loop pages (Z.of_nat (List.length pages)) tokens writer = Ok out ->
  Forall (good_page_token (Z.of_nat (List.length pages))) tokens.
Proof.
  revert writer; induction tokens as [|t ts IH]; intros writer;
    cbn [extract_loop]; [constructor|].
  destruct (Py.isdigit t) eqn:Hd; cbn [negb]; [|discriminate].
  destruct ((Py.int t <? 1) || (Py.int t >? Z.of_nat (List.length pages)))
    eqn:G; [discriminate|].
  apply orb_false_elim in G as [G1 G2].
  destruct (getitem pages (Py.int t - 1)) as [page|e]; cbn [bind];
    [|discriminate].
  intros H. constructor; [|eapply IH; exact H].
  split; [assumption | lia].
Qed.

Lemma filter_after_map {A B : Type} (f : B -> bool) (g : A -> B)
    (l : list A) :
  map g (filter (fun x => f (g x)) l) = filter f (map g l).
Proof.
  induction l as [|x l IH]; simpl; [reflexivity|].
  destruct (f (g x)); simpl; congruence.
Qed.

Lemma page_tokens_stripped (pages_text : string) :
  page_tokens pages_text
  = filter (fun p => negb (Py.is_empty p))
      (map Py.strip (Py.split "," pages_text)).
Proof.
  unfold page_tokens.
  apply (filter_after_map (fun p => negb (Py.is_empty p)) Py.strip).
Qed.

End MoreOperations.

Lemma split_pdf_raises_iff_witness :
  Demo.reader [10; 20; 30]%nat = Ok [10; 20; 30]%nat
  /\ (Demo.split [10; 20; 30]%nat "1,4" "doc.pdf" = Raise (OutOfBounds "4" 3)
      <-> _parse_segments "1,4" 3 = Raise (OutOfBounds "4" 3)).
Proof.
  split; [reflexivity|].
  apply (proj1 (split_pdf_raises_iff Demo.reader Demo.writer
                  [10; 20; 30]%nat [10; 20; 30]%nat "1,4" "doc.pdf" eq_refl)).
Defined.

(** ** Merging *)

Section MoreMerge.

Context {File Page Bytes : Type}.
Variable PdfReader : File -> result (list Page).
Variable write : list Page -> Bytes.

Lemma length_concat_counts (docs : list (list Page)) :
  Z.of_nat (List.length (List.concat docs))
  = total_count (map (fun d => Z.of_nat (List.length d)) docs).
Proof.
  induction docs as [|d docs IH]; simpl; [reflexivity|].
  rewrite length_app, Nat2Z.inj_add, IH. reflexivity.
Qed.

(** X9. When every file decodes, the writer of [merge_pdfs] ends with as many
    pages as the page counts that [get_pdf_info] reports for the files add
    up to. *)
Theorem merge_page_count (files : list File) (docs : list (list Page)) :
  Forall2 (fun f d => PdfReader f = Ok d) files docs ->
  exists writer counts,
    merge_loop PdfReader files [] = Ok writer
    /\ merge_pdfs PdfReader write files = Ok (write writer)
    /\ Forall2 (fun f c => get_pdf_info PdfReader f = Ok c) files counts
    /\ Z.of_nat (List.length writer) = total_count counts.
Proof.
  intros H.
  exists (List.concat docs), (map (fun d => Z.of_nat (List.length d)) docs).
  pose proof (merge_loop_decoded PdfReader files docs [] H) as Hm.
  cbn [app] in Hm. split; [exact Hm|]. split.
  - unfold merge_pdfs. rewrite Hm. reflexivity.
  - split; [|apply length_concat_counts].
    clear Hm. induction H as [|f d files docs Hf _ IH]; cbn [map];
      constructor; [|exact IH].
    unfold get_pdf_info. rewrite Hf. reflexivity.
Qed.

Lemma merge_loop_raises (files : list File) (writer : list Page) (e : exn) :
  merge_loop PdfReader files writer = Raise e ->
  exists pre f post,
    files = pre ++ f :: post
    /\ Forall (fun g => exists d, PdfReader g = Ok d) pre
    /\ PdfReader f = Raise e.
Proof.
  revert writer; induction files as [|f files IH]; intros writer;
    cbn [merge_loop]; [discriminate|].
  destruct (PdfReader f) as [d|e'] eqn:Hf; cbn [bind].
  - intros H. destruct (IH _ H) as (pre & g & post & -> & Hpre & Hg).
    exists (f :: pre), g, post. split; [reflexivity|].
    split; [constructor; eauto | assumption].
  - intros H; inversion H; subst. exists [], f, files.
    split; [reflexivity|]. split; [constructor | assumption].
Qed.

Lemma merge_loop_first_error (pre post : list File) (f : File)
    (writer : list Page) (e : exn) :
  Forall (fun g => exists d, PdfReader g = Ok d) pre ->
  PdfReader f = Raise e ->
  merge_loop PdfReader (pre ++ f :: post) writer = Raise e.
Proof.
  intros Hpre Hf. revert writer.
  induction Hpre as [|g pre (d & Hg) _ IH]; intros writer.
  - change ([] ++ f :: post) with (f :: post).
    cbn [merge_loop]. rewrite Hf. reflexivity.
  - change ((g :: pre) ++ f :: post) with (g :: (pre ++ f :: post)).
    cbn [merge_loop]. rewrite Hg. cbn [bind]. apply IH.
Qed.

(** X10. [merge_pdfs] raises [e] exactly when some file raises [e] on decoding
    and every file before it decodes: the first file that cannot be read
    decides, and nothing is written. *)
Theorem merge_pdfs_raises_iff (files : list File) (e : exn) :
  merge_pdfs PdfReader write files = Raise e
  <-> exists pre f post,
        files = pre ++ f :: post
        /\ Forall (fun g => exists d, PdfReader g = Ok d) pre
        /\ PdfReader f = Raise e.
Proof.
  unfold merge_pdfs. split.
  - destruct (merge_loop PdfReader files []) as [w|e'] eqn:E; cbn [bind];
      [discriminate|].
    intros H; inversion H; subst. eapply merge_loop_raises; exact E.
  - intros (pre & f & post & -> & Hpre & Hf).
    rewrite (merge_loop_first_error pre post f [] e Hpre Hf). reflexivity.
Qed.

End MoreMerge.

Lemma merge_page_count_witness :
  exists writer counts,
    merge_loop Demo.reader [[1; 2]; []; [7; 8; 9]]%nat [] = Ok writer
    /\ Demo.merge [[1; 2]; []; [7; 8; 9]]%nat = Ok writer
    /\ Forall2 (fun f c => get_pdf_info Demo.reader f = Ok c)
         [[1; 2]; []; [7; 8; 9]]%nat counts
    /\ Z.of_nat (List.length writer) = total_count counts.
Proof.
  apply (merge_page_count Demo.reader Demo.writer
           [[1; 2]; []; [7; 8; 9]]%nat [[1; 2]; []; [7; 8; 9]]%nat).
  repeat constructor.
Defined.

(** ** File names *)

Lemma before_last_none (c : ascii) (s : string) :
  Py.before_last c s = None -> Py.contains c s = false.
Proof.
  induction s as [|x s IH]; simpl; [reflexivity|].
  destruct (Py.before_last c s); [discriminate|].
  destruct (Ascii.eqb x c); [discriminate | auto].
Qed.

Lemma before_last_some (c : ascii) (s r : string) :
  Py.before_last c s = Some r ->
  exists ext, s = (r ++ String c ext)%string /\ Py.contains c ext = false.
Proof.
  revert r; induction s as [|x s IH]; intros r; simpl; [discriminate|].
  destruct (Py.before_last c s) as [r'|] eqn:E.
  - intros H; inversion H; subst.
    destruct (IH r' eq_refl) as (ext & -> & Hext).
    exists ext. split; [reflexivity | assumption].
  - destruct (Ascii.eqb_spec x c) as [->|N]; [|discriminate].
    intros H; inversion H; subst. exists s.
    split; [reflexivity | now apply before_last_none].
Qed.

Lemma rsplit1_head_base_name (filename : string) :
  Py.rsplit1_head "." filename = base_name filename.
Proof.
  unfold base_name, Py.rsplit1_head.
  destruct (Py.contains "." filename) eqn:Hc; [reflexivity|].
  now rewrite before_last_absent.
Qed.

(** X11. A file name with a dot in it is its base name, a dot and an extension
    without a dot; and the [rsplit] of the preview, which is not guarded by
    a test for a dot, gives the same base name as the guarded one of
    [split_pdf] for every file name. *)
Theorem base_name_round_trip (filename : string) :
  (Py.contains "." filename = true ->
   exists ext,
     Py.contains "." ext = false
     /\ filename = (base_name filename ++ "." ++ ext)%string)
  /\ Py.rsplit1_head "." filename = base_name filename.
Proof.
  split; [|apply rsplit1_head_base_name].
  intros Hc. unfold base_name, Py.rsplit1_head. rewrite Hc.
  destruct (Py.before_last "." filename) as [r|] eqn:E.
  - destruct (before_last_some "." filename r E) as (ext & -> & Hext).
    exists ext. split; [assumption | reflexivity].
  - apply before_last_none in E. congruence.
Qed.

Lemma base_name_round_trip_witness :
  exists ext,
    Py.contains "." ext = false
    /\ "report.v2.pdf" = (base_name "report.v2.pdf" ++ "." ++ ext)%string.
Proof.
  apply (proj1 (base_name_round_trip "report.v2.pdf")). reflexivity.
Defined.

Lemma merge_pdfs_raises_iff_witness :
  Strict.merge [[1; 2]; []; [7]]%nat = Raise PdfReadError.
Proof.
  apply (proj2 (merge_pdfs_raises_iff Strict.reader Demo.writer
                  [[1; 2]; []; [7]]%nat PdfReadError)).
  exists [[1; 2]%nat], ([] : list nat), [[7]%nat].
  split; [reflexivity|]. split; [|reflexivity].
  constructor; [|constructor]. exists [1; 2]%nat. reflexivity.
Defined.

(** ** The preview of the split tab *)

Lemma preview_line_out_name (base : string) (start end_ : Z) :
  preview_line base start end_
  = (out_name base start end_ ++ preview_label start end_)%string.
Proof.
  unfold preview_line, out_name, preview_label.
  destruct (start =? end_); rewrite !append_assoc; reflexivity.
Qed.

Section Preview.

Context {File Page Bytes : Type}.
Variable PdfReader : File -> result (list Page).
Variable write : list Page -> Bytes.

(** X12. The preview and the split agree. For a file that decodes and a
    non-empty spec, with the page count that [get_pdf_info] reports: when
    the spec parses, the preview lists one line per file that [split_pdf]
    creates, in the same order, each line being the name of the file
    followed by the pages in brackets; when it does not, the preview warns
    with the very message that [split_pdf] raises. The preview itself never
    raises. *)
Theorem split_preview_agrees
    (file : File) (pages : list Page) (name spec : string) :
  PdfReader file = Ok pages ->
  spec <> "" ->
  let total_pages := Z.of_nat (List.length pages) in
  get_pdf_info PdfReader file = Ok total_pages
  /\ (forall segs,
         _parse_segments spec total_pages = Ok segs ->
         exists lines outs,
           split_preview name spec total_pages
           = Ok (Some (PreviewFiles lines))
           /\ split_pdf PdfReader write file spec name = Ok outs
           /\ List.length outs = List.length segs
           /\ Forall2
                (fun line so =>
                   line = (fst (snd so)
                           ++ preview_label (fst (fst so)) (snd (fst so)))%string)
                lines (combine segs outs))
  /\ (forall e,
         _parse_segments spec total_pages = Raise e ->
         exists msg,
           e = ValueError msg
           /\ split_preview name spec total_pages
              = Ok (Some (PreviewWarning msg))
           /\ split_pdf PdfReader write file spec name
              = Raise (ValueError msg))
  /\ (forall e, split_preview name spec total_pages <> Raise e).
Proof.
  intros Hr Hne total_pages. subst total_pages.
  apply is_empty_false in Hne.
  split; [unfold get_pdf_info; rewrite Hr; reflexivity|].
  split; [|split].
  - intros segs Hp.
    exists (map (fun seg => preview_line (Py.rsplit1_head "." name)
                              (fst seg) (snd seg)) segs),
      (map (split_output write pages (base_name name)) segs).
    split; [unfold split_preview; rewrite Hne, Hp; reflexivity|].
    split; [now apply split_pdf_parsed|].
    split; [apply length_map|].
    rewrite (rsplit1_head_base_name name).
    clear Hp. induction segs as [|[s e] segs IH]; cbn [map combine];
      constructor; [|exact IH].
    cbn [fst snd split_output]. apply preview_line_out_name.
  - intros e Hp. destruct (parse_segments_raises _ _ _ Hp) as (msg & ->).
    exists msg. split; [reflexivity|].
    split; [unfold split_preview; rewrite Hne, Hp; reflexivity|].
    unfold split_pdf. rewrite Hr. cbn [bind]. rewrite Hp. reflexivity.
  - intros e. unfold split_preview. rewrite Hne.
    destruct (_parse_segments spec (Z.of_nat (List.length pages)))
      as [segs|e'] eqn:Hp; [discriminate|].
    destruct (parse_segments_raises _ _ _ Hp) as (msg & ->). discriminate.
Qed.

End Preview.

Lemma split_preview_agrees_witness :
  Demo.reader [10; 20; 30]%nat = Ok [10; 20; 30]%nat
  /\ "1,2-3" <> ""
  /\ get_pdf_info Demo.reader [10; 20; 30]%nat = Ok 3
  /\ split_preview "doc.pdf" "1,2-3" 3
     = Ok (Some (PreviewFiles ["doc_p1.pdf (page 1)";
                               "doc_p2-3.pdf (pages 2-3)"]))
  /\ exists msg,
      OutOfBounds "4" 3 = ValueError msg
      /\ split_preview "doc.pdf" "4" 3 = Ok (Some (PreviewWarning msg))
      /\ Demo.split [10; 20; 30]%nat "4" "doc.pdf" = Raise (ValueError msg).
Proof.
  split; [reflexivity|]. split; [discriminate|].
  split; [|split; [reflexivity|]].
  - apply (proj1 (split_preview_agrees Demo.reader Demo.writer
                    [10; 20; 30]%nat [10; 20; 30]%nat "doc.pdf" "1,2-3"
                    eq_refl ltac:(discriminate))).
  - apply (proj1 (proj2 (proj2 (split_preview_agrees Demo.reader Demo.writer
                    [10; 20; 30]%nat [10; 20; 30]%nat "doc.pdf" "4"
                    eq_refl ltac:(discriminate))))).
    reflexivity.
Defined.

(** ** The individual downloads of the split tab *)

Lemma map_fst_combine {A B : Type} (a : list A) (b : list B) :
  List.length a = List.length b -> map fst (combine a b) = a.
Proof.
  revert b; induction a as [|x a IH]; intros [|y b]; simpl; try discriminate.
  - reflexivity.
  - intros H. f_equal. apply IH. lia.
Qed.

Lemma enumerate_indices {A : Type} (l : list A) :
  map fst (enumerate l) = map Z.of_nat (seq 0 (List.length l)).
Proof.
  unfold enumerate. apply map_fst_combine.
  now rewrite length_map, length_seq.
Qed.

Lemma enumerate_index_bounds {A : Type} (l : list A) (i : Z) (x : A) :
  In (i, x) (enumerate l) -> 0 <= i < Z.of_nat (List.length l).
Proof.
  unfold enumerate. intros H. apply in_combine_l in H.
  apply in_map_iff in H as (n & <- & Hn). apply in_seq in Hn. lia.
Qed.

Lemma download_key_inj (i j : Z) :
  0 <= i -> 0 <= j ->
  ("split_download_" ++ Py.str i)%string = ("split_download_" ++ Py.str j)%string ->
  i = j.
Proof.
  intros Hi Hj H. apply append_inv_head in H. now apply str_inj.
Qed.

Section Downloads.

Context {Bytes : Type}.
Implicit Type created_files : list (string * Bytes).

Lemma download_keys created_files :
  map key (individual_downloads created_files)
  = map (fun n => ("split_download_" ++ Py.str (Z.of_nat n))%string)
      (seq 0 (List.length created_files)).
Proof.
  unfold individual_downloads. rewrite map_map.
  rewrite <- (map_map Z.of_nat (fun i => ("split_download_" ++ Py.str i)%string)).
  rewrite <- enumerate_indices, map_map.
  apply map_ext. intros [i [filename d]]. reflexivity.
Qed.

(** X13. The keys of the individual download buttons are pairwise distinct,
    whatever the created files are, also when several of them have the
    same name. *)
Theorem download_keys_distinct created_files :
  NoDup (map key (individual_downloads created_files)).
Proof.
  rewrite download_keys. apply NoDup_map_NoDup_ForallPairs; [|apply seq_NoDup].
  intros n m _ _ H. apply download_key_inj in H; lia.
Qed.

(** X14. Every individual download button is put in a column that exists:
    the index [i % 3] is below the number [min(len(created_files), 3)] of
    columns asked for; and there is one button per created file, carrying
    its name and its bytes, in the order of the files. *)
Theorem download_columns_in_range created_files :
  (forall b,
      In b (individual_downloads created_files) ->
      0 <= column b < n_columns created_files)
  /\ map (fun b => (file_name b, data b)) (individual_downloads created_files)
     = created_files.
Proof.
  split.
  - intros b Hb. unfold individual_downloads in Hb.
    apply in_map_iff in Hb as ([i [filename d]] & <- & Hin).
    apply enumerate_index_bounds in Hin. cbn [column]. unfold n_columns.
    pose proof (Z.mod_pos_bound i 3 ltac:(lia)) as Hm.
    destruct (Z.lt_ge_cases i 3) as [Hlt|Hge].
    + rewrite Z.mod_small by lia. lia.
    + lia.
  - unfold individual_downloads, enumerate. rewrite map_map.
    generalize 0%nat.
    induction created_files as [|[filename d] l IH]; intros k;
      cbn [List.length seq map combine]; [reflexivity|].
    f_equal. apply IH.
Qed.

End Downloads.

Lemma download_columns_in_range_witness :
  0 <= 3 mod 3 < n_columns [("a.pdf", 1%nat); ("a.pdf", 2%nat);
                            ("b.pdf", 3%nat); ("c.pdf", 4%nat)].
Proof.
  apply (proj1 (download_columns_in_range
                  [("a.pdf", 1%nat); ("a.pdf", 2%nat); ("b.pdf", 3%nat);
                   ("c.pdf", 4%nat)])
           {| column := 3 mod 3; label := "c.pdf"; data := 4%nat;
              file_name := "c.pdf"; mime := "application/pdf";
              key := "split_download_3" |}).
  right; right; right; left; reflexivity.
Defined.

(** ** The preview of the extract tab *)

Lemma rstrip_empty (s : string) :
  Py.rstrip s = "" -> only_whitespace s = true.
Proof.
  induction s as [|x s IH]; simpl; [reflexivity|].
  destruct (Py.rstrip s); [|discriminate].
  destruct (Py.is_space x); [auto | discriminate].
Qed.

Lemma lstrip_whitespace (s : string) :
  only_whitespace (Py.lstrip s) = true -> only_whitespace s = true.
Proof.
  induction s as [|x s IH]; simpl; [reflexivity|].
  destruct (Py.is_space x) eqn:E; [auto|]. simpl. now rewrite E.
Qed.

Lemma strip_empty_iff (s : string) :
  Py.strip s = "" <-> only_whitespace s = true.
Proof.
  split; [|apply only_whitespace_strip].
  unfold Py.strip. intros H. now apply lstrip_whitespace, rstrip_empty.
Qed.

Lemma split_whitespace (c : ascii) (s : string) :
  only_whitespace s = true ->
  Forall (fun p => only_whitespace p = true) (Py.split c s).
Proof.
  induction s as [|x s IH]; simpl; [repeat constructor|].
  intros H. apply andb_prop in H as [Hx Hs]. specialize (IH Hs).
  destruct (Ascii.eqb x c); [constructor; auto|].
  destruct (Py.split c s) as [|t ts].
  - repeat constructor. simpl. now rewrite Hx.
  - inversion IH; subst. constructor; [|assumption].
    simpl. rewrite Hx. assumption.
Qed.

Lemma page_tokens_whitespace (s : string) :
  only_whitespace s = true -> page_tokens s = [].
Proof.
  intros H. unfold page_tokens.
  pose proof (split_whitespace "," s H) as Hall.
  induction Hall as [|p l Hp _ IH]; simpl; [reflexivity|].
  rewrite (only_whitespace_strip p Hp). simpl. exact IH.
Qed.

Section ExtractPreview.

Context {File Page Bytes : Type}.
Variable PdfReader : File -> result (list Page).
Variable write : list Page -> Bytes.

(** X15. When the extract tab shows its preview line, pressing the button does
    not give "Please enter at least one page number.": the request reaches
    [extract_pages]. When that succeeds on a file that decodes, the line
    announced exactly the number of pages put into the output, followed by
    the tokens joined with a comma and a space. *)
Theorem extract_preview_consistent
    (file : File) (extract_pages_input line : string) :
  extract_preview extract_pages_input = Some line ->
  extract_btn PdfReader write file extract_pages_input <> NoPagesSpecified
  /\ (forall pages writer,
         PdfReader file = Ok pages ->
         extract_loop pages (Z.of_nat (List.length pages))
           (page_tokens extract_pages_input) [] = Ok writer ->
         extract_pages PdfReader write file extract_pages_input
         = Ok (write writer)
         /\ line = ("**Will extract " ++ Py.str (Z.of_nat (List.length writer))
                    ++ " page(s):** "
                    ++ String.concat ", " (page_tokens extract_pages_input))%string).
Proof.
  unfold extract_preview.
  destruct (Py.is_empty extract_pages_input) eqn:E1; [discriminate|].
  destruct (page_tokens extract_pages_input) as [|t ts] eqn:Et;
    [discriminate|].
  intros H; inversion H; subst line; clear H.
  assert (E2 : Py.is_empty (Py.strip extract_pages_input) = false).
  { apply is_empty_false. intros Hs. apply strip_empty_iff in Hs.
    apply page_tokens_whitespace in Hs. congruence. }
  split.
  - unfold extract_btn. rewrite E1, E2. cbn [orb].
    destruct (extract_pages PdfReader write file extract_pages_input);
      discriminate.
  - intros pages writer Hr Hloop. split.
    + unfold extract_pages. rewrite Hr. cbn [bind]. rewrite Et, Hloop.
      reflexivity.
    + pose proof (extract_loop_ok_good _ _ _ _ Hloop) as Hgood.
      destruct (extract_loop_good pages _ Hgood) as (out & Hout & Hl).
      specialize (Hl [] []). rewrite app_nil_r in Hl.
      rewrite Hl in Hloop. inversion Hloop; subst writer.
      apply Forall2_length in Hout. rewrite <- Hout. reflexivity.
Qed.

End ExtractPreview.

Lemma extract_preview_consistent_witness :
  extract_preview " 3, 1 ,,1" = Some "**Will extract 3 page(s):** 3, 1, 1"
  /\ Demo.extract_button [10; 20; 30]%nat " 3, 1 ,,1" <> NoPagesSpecified.
Proof.
  split; [reflexivity|].
  apply (proj1 (extract_preview_consistent Demo.reader Demo.writer
                  [10; 20; 30]%nat " 3, 1 ,,1"
                  "**Will extract 3 page(s):** 3, 1, 1" eq_refl)).
Defined.

(** ** The operations together *)

Lemma is_digit_not_space (c : ascii) :
  Py.is_digit c = true -> Py.is_space c = false.
Proof.
  unfold Py.is_digit, Py.is_space. intros H.
  apply andb_prop in H as [H1 H2].
  apply Nat.leb_le in H1. apply Nat.leb_le in H2.
  apply orb_false_intro; apply andb_false_iff.
  - right. apply Nat.leb_gt. lia.
  - right. apply Nat.leb_gt. lia.
Qed.

Lemma rstrip_digits (s : string) : Py.all_digits s = true -> Py.rstrip s = s.
Proof.
  induction s as [|x s IH]; simpl; [reflexivity|].
  intros H. apply andb_prop in H as [Hx Hs]. rewrite (IH Hs).
  destruct s; [|reflexivity]. now rewrite (is_digit_not_space x Hx).
Qed.

Lemma strip_digits (s : string) : Py.all_digits s = true -> Py.strip s = s.
Proof.
  intros H. unfold Py.strip.
  assert (Hl : Py.lstrip s = s).
  { destruct s as [|x s]; [reflexivity|]. simpl in *.
    apply andb_prop in H as [Hx _]. now rewrite (is_digit_not_space x Hx). }
  rewrite Hl. now apply rstrip_digits.
Qed.

Lemma page_tokens_number (t : string) :
  Py.isdigit t = true -> page_tokens t = [t].
Proof.
  intros H. pose proof (isdigit_all_digits t H) as Hd.
  unfold page_tokens.
  rewrite split_absent by (apply all_digits_contains; [reflexivity | exact Hd]).
  cbn [filter]. rewrite (strip_digits t Hd).
  destruct t as [|x t]; [discriminate|].
  cbn [Py.is_empty negb map]. now rewrite (strip_digits _ Hd).
Qed.

Lemma parse_number (n total_pages : Z) :
  1 <= n <= total_pages -> _parse_segments (Py.str n) total_pages = Ok [(n, n)].
Proof.
  intros Hn.
  assert (Hd : Py.isdigit (Py.str n) = true) by (apply str_isdigit; lia).
  rewrite parse_single_token.
  - rewrite (parse_token_denotes total_pages (Py.str n)
               (Py.int (Py.str n), Py.int (Py.str n)))
      by now constructor.
    rewrite int_str by lia.
    rewrite check_segment_valid; [reflexivity|].
    unfold valid_segment; simpl; lia.
  - apply str_no_char; [reflexivity | lia].
  - apply str_no_char; [reflexivity | lia].
  - now apply isdigit_nonempty.
Qed.

Lemma pages_of_segment_app {Page : Type} (pages : list Page) (a e : Z) :
  1 <= a -> a <= e + 1 ->
  pages_of_segment pages a e ++ skipn (Z.to_nat e) pages
  = skipn (Z.to_nat (a - 1)) pages.
Proof.
  intros Ha He. unfold pages_of_segment.
  replace (Z.to_nat e)
    with (Z.to_nat (e - a + 1) + Z.to_nat (a - 1))%nat by lia.
  rewrite <- skipn_skipn. apply firstn_skipn.
Qed.

Lemma consecutive_pages {Page : Type} (pages : list Page) (segs : list (Z * Z))
    (a : Z) :
  1 <= a ->
  Forall (valid_segment (Z.of_nat (List.length pages))) segs ->
  consecutive a segs (Z.of_nat (List.length pages)) ->
  List.concat (map (fun seg => pages_of_segment pages (fst seg) (snd seg)) segs)
  = skipn (Z.to_nat (a - 1)) pages.
Proof.
  intros Ha Hv. revert a Ha.
  induction Hv as [|[s e] segs Hse _ IH]; intros a Ha; cbn [consecutive].
  - intros ->. cbn [map List.concat].
    replace (Z.to_nat (Z.of_nat (List.length pages) + 1 - 1))
      with (List.length pages) by lia.
    symmetry. apply skipn_all.
  - intros [-> Hrest]. unfold valid_segment in Hse. cbn [fst snd] in Hse.
    cbn [map List.concat fst snd]. rewrite (IH (e + 1)) by (lia || assumption).
    replace (e + 1 - 1) with e by lia.
    apply pages_of_segment_app; lia.
Qed.

Section Together.

Context {File Page Bytes : Type}.
Variable PdfReader : File -> result (list Page).
Variable write : list Page -> Bytes.

(** X16. Splitting off a single page and extracting that page give the same
    bytes: for a file that decodes and [1 <= k <= total], [split_pdf] with
    spec [k] returns one file, named [<base>_p<k>.pdf], whose bytes are
    those [extract_pages] returns for the page list [k]. *)
Theorem split_single_page_is_extract
    (file : File) (pages : list Page) (filename : string) (k : Z) :
  PdfReader file = Ok pages ->
  1 <= k <= Z.of_nat (List.length pages) ->
  exists data,
    split_pdf PdfReader write file (Py.str k) filename
    = Ok [((base_name filename ++ "_p" ++ Py.str k ++ ".pdf")%string, data)]
    /\ extract_pages PdfReader write file (Py.str k) = Ok data.
Proof.
  intros Hr Hk.
  destruct (getitem_page_number pages k Hk) as (page & Hg & Hn).
  exists (write [page]). split.
  - rewrite (split_pdf_parsed PdfReader write file pages (Py.str k) filename
               [(k, k)] Hr (parse_number k _ Hk)).
    unfold split_output, out_name. cbn [map fst snd]. rewrite Z.eqb_refl.
    do 3 f_equal. unfold pages_of_segment.
    unfold page_number in Hn. replace (k <? 1) with false in Hn by lia.
    rewrite (skipn_nth_error pages _ page Hn).
    replace (Z.to_nat (k - k + 1)) with 1%nat by lia. reflexivity.
  - unfold extract_pages. rewrite Hr. cbn [bind].
    rewrite page_tokens_number by (apply str_isdigit; lia).
    cbn [extract_loop]. rewrite str_isdigit by lia. cbn [negb].
    rewrite int_str by lia.
    replace (k <? 1) with false by lia.
    replace (k >? Z.of_nat (List.length pages)) with false by lia.
    cbn [orb]. rewrite Hg. reflexivity.
Qed.

(** The codec reads back what it writes. *)
Variable decode : Bytes -> result (list Page).
Hypothesis decode_write : forall pages, decode (write pages) = Ok pages.

(** X17. Splitting and merging back. With a codec that reads back what it
    writes: merging the files of a successful split, in their order,
    writes the pages of the segments one after the other; when the segments
    follow one another from page 1 to the last page, the result is the
    document itself. *)
Theorem split_then_merge
    (file : File) (pages : list Page) (spec filename : string)
    (segs : list (Z * Z)) (outs : list (string * Bytes)) :
  PdfReader file = Ok pages ->
  _parse_segments spec (Z.of_nat (List.length pages)) = Ok segs ->
  split_pdf PdfReader write file spec filename = Ok outs ->
  merge_pdfs decode write (map snd outs)
  = Ok (write (List.concat
                 (map (fun seg => pages_of_segment pages (fst seg) (snd seg))
                    segs)))
  /\ (consecutive 1 segs (Z.of_nat (List.length pages)) ->
      merge_pdfs decode write (map snd outs) = Ok (write pages)).
Proof.
  intros Hr Hp Hs.
  rewrite (split_pdf_parsed PdfReader write _ _ _ filename _ Hr Hp) in Hs.
  inversion Hs; subst outs; clear Hs.
  assert (Hm : merge_pdfs decode write
                 (map snd (map (split_output write pages (base_name filename))
                             segs))
               = Ok (write (List.concat
                              (map (fun seg => pages_of_segment pages (fst seg)
                                                 (snd seg)) segs)))).
  { unfold merge_pdfs.
    rewrite (merge_loop_decoded decode _
               (map (fun seg => pages_of_segment pages (fst seg) (snd seg))
                  segs) []).
    - reflexivity.
    - clear Hp. induction segs as [|seg segs IH]; cbn [map]; constructor;
        [apply decode_write | exact IH]. }
  split; [exact Hm|].
  intros Hc. rewrite Hm.
  rewrite (consecutive_pages pages segs 1 ltac:(lia)
             (parse_segments_valid spec _ segs Hp) Hc).
  reflexivity.
Qed.

End Together.

Lemma split_single_page_is_extract_witness :
  Demo.reader [10; 20; 30]%nat = Ok [10; 20; 30]%nat
  /\ 1 <= 2 <= 3
  /\ exists data,
      Demo.split [10; 20; 30]%nat "2" "doc.pdf" = Ok [("doc_p2.pdf", data)]
      /\ Demo.extract [10; 20; 30]%nat "2" = Ok data.
Proof.
  split; [reflexivity|]. split; [lia|].
  apply (split_single_page_is_extract Demo.reader Demo.writer
           [10; 20; 30]%nat [10; 20; 30]%nat "doc.pdf" 2 eq_refl).
  simpl; lia.
Defined.

Lemma split_then_merge_witness :
  Demo.split [10; 20; 30; 40]%nat "1,2-3,4" "doc.pdf"
  = Ok [("doc_p1.pdf", [10]%nat); ("doc_p2-3.pdf", [20; 30]%nat);
        ("doc_p4.pdf", [40]%nat)]
  /\ consecutive 1 [(1, 1); (2, 3); (4, 4)] 4
  /\ Demo.merge [[10]; [20; 30]; [40]]%nat = Ok [10; 20; 30; 40]%nat.
Proof.
  split; [reflexivity|].
  assert (Hc : consecutive 1 [(1, 1); (2, 3); (4, 4)] 4)
    by (simpl; repeat split; reflexivity).
  split; [exact Hc|].
  apply (proj2 (split_then_merge Demo.reader Demo.writer Demo.reader
                  (fun pages => eq_refl)
                  [10; 20; 30; 40]%nat [10; 20; 30; 40]%nat "1,2-3,4" "doc.pdf"
                  [(1, 1); (2, 3); (4, 4)]
                  [("doc_p1.pdf", [10]%nat); ("doc_p2-3.pdf", [20; 30]%nat);
                   ("doc_p4.pdf", [40]%nat)]
                  eq_refl eq_refl eq_refl)).
  exact Hc.
Defined.

Lemma parse_segments_empty_spec_iff_witness :
  _parse_segments "    " 12 = Raise EmptySpec.
Proof.
  apply (proj2 (parse_segments_empty_spec_iff "    " 12)). reflexivity.
Defined.

(** * The claims that depend on what the builtins accept *)

Lemma token_yields_denotes (t : string) (seg : Z * Z) :
  token_yields t seg -> token_denotes t seg.
Proof. intros [u Hu _ | a b Ha Hb _ _]; now constructor. Qed.

Lemma passing_token_parses (total_pages : Z) (t : string) :
  passing_token total_pages t ->
  exists seg, parse_token t total_pages = Ok seg.
Proof.
  intros (seg & Hy & Hv). apply good_token_parses.
  exists seg. split; [now apply token_yields_denotes | assumption].
Qed.

(** C2. The tokens are checked from left to right and the first one that
    fails decides the error, nothing being accumulated. With every token
    before it passing: a token that yields [(start, end_)] with
    [start < 1], [end_ < 1] or [end_ < start] makes the parser raise
    [InvalidSegment] with that token; a token that passes that check and
    yields [end_ > total_pages] makes it raise [OutOfBounds] with the token
    and the bound; a first failing token that is no number, or no range of
    two numbers, makes it raise [MalformedPageNumber], or [MalformedRange],
    with that token. *)
Theorem C2_first_offending_token
    (spec : string) (total_pages : Z) (pre post : list string) (t : string) :
  nonempty_tokens (Py.remove " " spec) = pre ++ t :: post ->
  Forall (passing_token total_pages) pre ->
  (forall start end_,
      token_yields t (start, end_) ->
      start < 1 \/ end_ < 1 \/ end_ < start ->
      _parse_segments spec total_pages = Raise (InvalidSegment t))
  /\ (forall start end_,
         token_yields t (start, end_) ->
         1 <= start <= end_ -> end_ > total_pages ->
         _parse_segments spec total_pages = Raise (OutOfBounds t total_pages))
  /\ (is_ascii t = true ->
      Py.contains "-" t = false -> Py.isdigit t = false ->
      _parse_segments spec total_pages = Raise (MalformedPageNumber t))
  /\ (forall a b,
         is_ascii t = true ->
         t = (a ++ "-" ++ b)%string -> Py.contains "-" a = false ->
         Py.isdigit a = false \/ Py.isdigit b = false ->
         _parse_segments spec total_pages = Raise (MalformedRange t)).
Proof.
  intros Htok Hpre.
  assert (Hfirst : forall e, parse_token t total_pages = Raise e ->
                             _parse_segments spec total_pages = Raise e).
  { intros e He. unfold _parse_segments.
    rewrite (tokens_nonempty_spec spec pre post t Htok), Htok.
    apply parse_loop_first_error; [|assumption].
    eapply Forall_impl; [|exact Hpre].
    intros u Hu. now apply passing_token_parses. }
  split; [|split; [|split]].
  - intros start end_ Hy Hbad. apply Hfirst.
    rewrite (parse_token_denotes total_pages t _ (token_yields_denotes _ _ Hy)).
    unfold check_segment.
    destruct (start <? 1) eqn:E1; [reflexivity|].
    destruct (end_ <? 1) eqn:E2; [reflexivity|].
    destruct (end_ <? start) eqn:E3; [reflexivity|]. lia.
  - intros start end_ Hy Hok Hout. apply Hfirst.
    rewrite (parse_token_denotes total_pages t _ (token_yields_denotes _ _ Hy)).
    unfold check_segment.
    replace (start <? 1) with false by lia.
    replace (end_ <? 1) with false by lia.
    replace (end_ <? start) with false by lia.
    replace (end_ >? total_pages) with true by lia. reflexivity.
  - intros _ Hc Hd. apply Hfirst. unfold parse_token.
    rewrite Hc, Hd. reflexivity.
  - intros a b _ -> Ha Hab. apply Hfirst. unfold parse_token.
    assert (Hc : Py.contains "-" (a ++ "-" ++ b) = true).
    { rewrite contains_append. simpl. apply orb_true_r. }
    rewrite Hc. change (a ++ "-" ++ b)%string with (a ++ String "-" b)%string.
    rewrite (split1_at "-" a b Ha).
    replace (negb (Py.isdigit a) || negb (Py.isdigit b)) with true;
      [reflexivity|].
    symmetry. destruct Hab as [-> | ->]; [reflexivity | apply orb_true_r].
Qed.

Lemma passing_token_example : passing_token 10 "1".
Proof.
  exists (1, 1). split.
  - exact (yields_number "1" eq_refl eq_refl).
  - unfold valid_segment; simpl; lia.
Defined.

Lemma C2_first_offending_token_witness :
  _parse_segments "1,11,5-3" 10 = Raise (OutOfBounds "11" 10)
  /\ _parse_segments "1,5-3,11" 10 = Raise (InvalidSegment "5-3")
  /\ _parse_segments "1,x,0" 10 = Raise (MalformedPageNumber "x")
  /\ _parse_segments "1,2-,0" 10 = Raise (MalformedRange "2-").
Proof.
  assert (Hpre : Forall (passing_token 10) ["1"])
    by (constructor; [exact passing_token_example | constructor]).
  split; [|split; [|split]].
  - refine (proj1 (proj2 (C2_first_offending_token "1,11,5-3" 10 ["1"] ["5-3"]
                            "11" eq_refl Hpre)) 11 11 _ _ _).
    + exact (yields_number "11" eq_refl eq_refl).
    + lia.
    + lia.
  - refine (proj1 (C2_first_offending_token "1,5-3,11" 10 ["1"] ["11"]
                     "5-3" eq_refl Hpre) 5 3 _ _).
    + exact (yields_range "5" "3" eq_refl eq_refl eq_refl eq_refl).
    + lia.
  - apply (proj1 (proj2 (proj2 (C2_first_offending_token "1,x,0" 10 ["1"] ["0"]
                                  "x" eq_refl Hpre)))); reflexivity.
  - apply (proj2 (proj2 (proj2 (C2_first_offending_token "1,2-,0" 10 ["1"] ["0"]
                                  "2-" eq_refl Hpre))) "2" "");
      try reflexivity.
    right; reflexivity.
Defined.

(** The two checks on a segment come one after the other: a token whose
    end is both before its start and past the last page is an invalid
    segment. *)
Example invalid_segment_checked_first :
  _parse_segments "20-15" 10 = Raise (InvalidSegment "20-15").
Proof. reflexivity. Qed.

Lemma passing_page_token_good (total : Z) (t : string) :
  passing_page_token total t -> good_page_token total t.
Proof. intros (Hd & _ & Hr). split; assumption. Qed.

Lemma getitem_strict_in_range {Page : Type} (pages : list Page) (index : Z) :
  0 <= index < Z.of_nat (List.length pages) ->
  getitem_strict pages index = getitem pages index.
Proof.
  intros H. unfold getitem_strict, getitem. cbv zeta.
  destruct (index <? 0) eqn:E; [apply Z.ltb_lt in E; lia|].
  cbv iota. rewrite E. reflexivity.
Qed.

Section ClaimsOnReads.

Context {File Page Bytes : Type}.
Variable PdfReader : File -> result (list Page).
Variable write : list Page -> Bytes.


(** The loops read [reader.pages] at the indices they hand to [get], and
    only after the checks: a read that agrees with [getitem] between [0]
    and the last index gives the results [getitem] gives. *)
Lemma add_pages_with_agree (get : list Page -> Z -> result Page)
    (pages : list Page) (indices : list Z) (writer : list Page) :
  (forall p, In p indices -> get pages p = getitem pages p) ->
  add_pages_with get pages indices writer = add_pages pages indices writer.
Proof.
  revert writer; induction indices as [|p rest IH]; intros writer Hagree;
    cbn [add_pages_with add_pages]; [reflexivity|].
  rewrite (Hagree p (or_introl eq_refl)).
  destruct (getitem pages p) as [page|e]; cbn [bind]; [|reflexivity].
  apply IH. intros q Hq. apply Hagree. now right.
Qed.

Lemma split_loop_with_agree (get : list Page -> Z -> result Page)
    (pages : list Page) (base : string) (segs : list (Z * Z))
    (created : list (string * Bytes)) :
  (forall index, 0 <= index < Z.of_nat (List.length pages) ->
                 get pages index = getitem pages index) ->
  Forall (valid_segment (Z.of_nat (List.length pages))) segs ->
  split_loop_with write get pages base segs created
  = split_loop write pages base segs created.
Proof.
  intros Hagree Hv. revert created.
  induction Hv as [|[s e] segs Hse _ IH]; intros created;
    cbn [split_loop_with split_loop]; [reflexivity|].
  unfold valid_segment in Hse. cbn [fst snd] in Hse.
  rewrite add_pages_with_agree.
  - destruct (add_pages pages (Py.range (s - 1) e) []) as [w|err];
      cbn [bind]; [apply IH | reflexivity].
  - intros p Hp. apply Hagree. apply range_bounds in Hp. lia.
Qed.

Lemma extract_loop_with_agree (get : list Page -> Z -> result Page)
    (pages : list Page) (tokens : list string) (writer : list Page) :
  (forall index, 0 <= index < Z.of_nat (List.length pages) ->
                 get pages index = getitem pages index) ->
  extract_loop_with get pages (Z.of_nat (List.length pages)) tokens writer
  = extract_loop pages (Z.of_nat (List.length pages)) tokens writer.
Proof.
  intros Hagree. revert writer; induction tokens as [|t ts IH]; intros writer;
    cbn [extract_loop_with extract_loop]; [reflexivity|].
  destruct (negb (Py.isdigit t)); [reflexivity|].
  destruct ((Py.int t <? 1) || (Py.int t >? Z.of_nat (List.length pages)))
    eqn:G; [reflexivity|].
  apply orb_false_elim in G as [G1 G2].
  rewrite Hagree by lia.
  destruct (getitem pages (Py.int t - 1)) as [page|e]; cbn [bind];
    [apply IH | reflexivity].
Qed.

(** C9. For a file that decodes, every read of [reader.pages] that
    [split_pdf] and [extract_pages] make is at an index with
    [0 <= index < total_pages]: whatever a read outside these bounds would
    do, the operations give the same result on every input, so they make
    none; with a read that raises [IndexError] at every index outside the
    bounds, the negative ones too, neither operation raises [IndexError],
    and neither does with the read of pypdf. *)
Theorem C9_page_accesses_in_range (file : File) (pages : list Page) :
  PdfReader file = Ok pages ->
  (forall get : list Page -> Z -> result Page,
      (forall index, 0 <= index < Z.of_nat (List.length pages) ->
                     get pages index = getitem pages index) ->
      (forall spec filename,
          split_pdf_with PdfReader write get file spec filename
          = split_pdf PdfReader write file spec filename)
      /\ (forall pages_text,
             extract_pages_with PdfReader write get file pages_text
             = extract_pages PdfReader write file pages_text))
  /\ (forall spec filename,
         split_pdf_with PdfReader write getitem_strict file spec filename
         <> Raise IndexError)
  /\ (forall pages_text,
         extract_pages_with PdfReader write getitem_strict file pages_text
         <> Raise IndexError)
  /\ (forall spec filename,
         split_pdf PdfReader write file spec filename <> Raise IndexError)
  /\ (forall pages_text,
         extract_pages PdfReader write file pages_text <> Raise IndexError).
Proof.
  intros Hr.
  assert (Hany : forall get : list Page -> Z -> result Page,
             (forall index, 0 <= index < Z.of_nat (List.length pages) ->
                            get pages index = getitem pages index) ->
             (forall spec filename,
                 split_pdf_with PdfReader write get file spec filename
                 = split_pdf PdfReader write file spec filename)
             /\ (forall pages_text,
                    extract_pages_with PdfReader write get file pages_text
                    = extract_pages PdfReader write file pages_text)).
  { intros get Hagree. split.
    - intros spec filename. unfold split_pdf_with, split_pdf.
      rewrite Hr. cbn [bind].
      destruct (_parse_segments spec (Z.of_nat (List.length pages)))
        as [segs|e] eqn:Hp; cbn [bind]; [|reflexivity].
      apply split_loop_with_agree; [assumption|].
      eapply parse_segments_valid; exact Hp.
    - intros pages_text. unfold extract_pages_with, extract_pages.
      rewrite Hr. cbn [bind]. now rewrite extract_loop_with_agree. }
  assert (Hsplit : forall spec filename,
             split_pdf PdfReader write file spec filename <> Raise IndexError).
  { intros spec filename.
    destruct (_parse_segments spec (Z.of_nat (List.length pages)))
      as [segs|e] eqn:Hp.
    - rewrite (split_pdf_parsed PdfReader write _ _ _ filename _ Hr Hp).
      discriminate.
    - unfold split_pdf. rewrite Hr. cbn [bind]. rewrite Hp. cbn [bind].
      destruct (parse_segments_raises _ _ _ Hp) as (msg & ->). discriminate. }
  assert (Hextract : forall pages_text,
             extract_pages PdfReader write file pages_text <> Raise IndexError).
  { intros pages_text. unfold extract_pages. rewrite Hr. cbn [bind].
    destruct (extract_loop pages (Z.of_nat (List.length pages))
                (page_tokens pages_text) []) as [w|e] eqn:E; cbn [bind];
      [discriminate|].
    destruct (extract_loop_raises pages _ _ _ E) as (msg & ->). discriminate. }
  destruct (Hany getitem_strict (getitem_strict_in_range pages))
    as [Hs He].
  split; [exact Hany|]. split; [|split; [|split]].
  - intros spec filename. rewrite Hs. apply Hsplit.
  - intros pages_text. rewrite He. apply Hextract.
  - exact Hsplit.
  - exact Hextract.
Qed.

End ClaimsOnReads.

Example getitem_strict_ex : getitem_strict [10; 20; 30]%nat (-1) = Raise IndexError.
Proof. reflexivity. Qed.


Lemma C9_page_accesses_in_range_witness :
  Demo.reader [10; 20; 30]%nat = Ok [10; 20; 30]%nat
  /\ split_pdf_with Demo.reader Demo.writer getitem_strict
       [10; 20; 30]%nat "1-3,3,1" "doc.pdf"
     = Demo.split [10; 20; 30]%nat "1-3,3,1" "doc.pdf"
  /\ split_pdf_with Demo.reader Demo.writer getitem_strict
       [10; 20; 30]%nat "1-3,3,1" "doc.pdf" <> Raise IndexError
  /\ extract_pages_with Demo.reader Demo.writer getitem_strict
       [10; 20; 30]%nat "3,1,1" <> Raise IndexError.
Proof.
  split; [reflexivity|].
  pose proof (C9_page_accesses_in_range Demo.reader Demo.writer
                [10; 20; 30]%nat [10; 20; 30]%nat eq_refl)
    as (Hany & Hsplit & Hextract & _ & _).
  split; [|split; [apply Hsplit | apply Hextract]].
  apply (proj1 (Hany getitem_strict (getitem_strict_in_range _))).
Defined.

(** * Further properties that depend on what the builtins accept *)

Lemma int_accepts_append (a b : string) :
  int_accepts (a ++ b) = true ->
  int_accepts a = true /\ int_accepts b = true.
Proof.
  unfold int_accepts. rewrite append_length. intros H.
  apply Z.leb_le in H. split; apply Z.leb_le; lia.
Qed.

Lemma int_accepts_tail (c : ascii) (s : string) :
  int_accepts (String c s) = true -> int_accepts s = true.
Proof.
  unfold int_accepts. cbn [String.length]. intros H.
  apply Z.leb_le in H. apply Z.leb_le. lia.
Qed.

Lemma token_denotes_yields (t : string) (seg : Z * Z) :
  token_denotes t seg -> int_accepts t = true -> token_yields t seg.
Proof.
  intros [u Hu | a b Ha Hb] Hacc.
  - now constructor.
  - apply int_accepts_append in Hacc as [Hacc_a Hacc_b].
    apply int_accepts_tail in Hacc_b. now constructor.
Qed.

(** X1. For a spec in ASCII whose tokens are at most 4300 characters long,
    [_parse_segments] succeeds with [segs] exactly when the spec has a
    character other than a space and the segments are, token by token and
    in order, what the non-empty tokens yield, each one inside the
    document. *)
Theorem parse_segments_ok_iff (spec : string) (total_pages : Z)
    (segs : list (Z * Z)) :
  is_ascii spec = true ->
  Forall (fun t => int_accepts t = true) (nonempty_tokens (Py.remove " " spec)) ->
  _parse_segments spec total_pages = Ok segs
  <-> Py.remove " " spec <> ""
      /\ Forall2 (fun t seg => token_yields t seg
                               /\ valid_segment total_pages seg)
           (nonempty_tokens (Py.remove " " spec)) segs.
Proof.
  intros _ Hacc. rewrite parse_model_ok_iff.
  split; intros [Hne H]; (split; [exact Hne|]).
  - revert Hacc. induction H as [|t seg ts segs [Hd Hv] _ IH]; intros Hacc;
      [constructor|].
    inversion Hacc; subst. constructor; [|now apply IH].
    split; [now apply token_denotes_yields | assumption].
  - eapply Forall2_impl; [|exact H].
    intros t seg [Hy Hv]. split; [now apply token_yields_denotes | assumption].
Qed.

Lemma parse_segments_ok_iff_witness :
  _parse_segments "3, 1-2" 3 = Ok [(3, 3); (1, 2)].
Proof.
  apply (proj2 (parse_segments_ok_iff "3, 1-2" 3 [(3, 3); (1, 2)] eq_refl
                  ltac:(repeat constructor))).
  split; [discriminate|].
  constructor; [|constructor; [|constructor]].
  - split; [exact (yields_number "3" eq_refl eq_refl)|].
    unfold valid_segment; simpl; lia.
  - split; [exact (yields_range "1" "2" eq_refl eq_refl eq_refl eq_refl)|].
    unfold valid_segment; simpl; lia.
Defined.

(** X5. Leading zeros do not matter as long as the numeral stays within
    the 4300 digits [int] accepts: a token the parser accepts is accepted
    with the same segment when a zero is put in front of it, and tokens
    that are zero-padded in this way parse to the same segments. *)
Theorem parse_leading_zeros (total_pages : Z) :
  (forall t seg,
      int_accepts (String "0" t) = true ->
      parse_token t total_pages = Ok seg ->
      parse_token (String "0" t) total_pages = Ok seg)
  /\ (forall tokens tokens' segs,
         Forall2 (fun t t' => t' = t \/ t' = String "0" t) tokens tokens' ->
         Forall (fun t' => int_accepts t' = true) tokens' ->
         parse_loop tokens total_pages [] = Ok segs ->
         parse_loop tokens' total_pages [] = Ok segs).
Proof.
  assert (Htok : forall t seg,
             parse_token t total_pages = Ok seg ->
             parse_token (String "0" t) total_pages = Ok seg).
  { intros t seg H. apply parse_token_ok in H as [Hd Hv].
    rewrite (parse_token_denotes total_pages _ seg
               (token_denotes_leading_zero t seg Hd)).
    now apply check_segment_valid. }
  split; [intros t seg _; apply Htok|].
  intros tokens tokens' segs Hpad _ H. apply parse_loop_ok in H.
  apply parse_loop_complete.
  revert segs H; induction Hpad as [|t t' ts ts' Ht _ IH]; intros segs H;
    inversion H; subst; constructor; auto.
  destruct Ht as [->| ->]; auto.
Qed.

Lemma parse_leading_zeros_witness :
  _parse_segments "7,1-3" 10 = Ok [(7, 7); (1, 3)]
  /\ _parse_segments "07,01-3" 10 = Ok [(7, 7); (1, 3)]
  /\ parse_token "07" 10 = Ok (7, 7).
Proof.
  split; [reflexivity|]. split.
  - apply (proj2 (parse_leading_zeros 10) ["7"; "1-3"] ["07"; "01-3"]);
      [| |reflexivity].
    + repeat constructor; right; reflexivity.
    + repeat constructor.
  - apply (proj1 (parse_leading_zeros 10) "7"); reflexivity.
Defined.

Lemma rstrip_whitespace (r : string) :
  only_whitespace r = true -> Py.rstrip r = "".
Proof.
  induction r as [|x r IH]; simpl; [reflexivity|].
  intros H. apply andb_prop in H as [Hx Hr]. now rewrite (IH Hr), Hx.
Qed.

Lemma lstrip_padding (l s : string) :
  only_whitespace l = true -> Py.lstrip (l ++ s) = Py.lstrip s.
Proof.
  induction l as [|x l IH]; simpl; [reflexivity|].
  intros H. apply andb_prop in H as [Hx Hl]. rewrite Hx. auto.
Qed.

Lemma rstrip_padding (s r : string) :
  only_whitespace r = true -> Py.rstrip (s ++ r) = Py.rstrip s.
Proof.
  intros Hr. induction s as [|x s IH]; simpl.
  - now apply rstrip_whitespace.
  - now rewrite IH.
Qed.

Lemma lstrip_append (s r : string) :
  only_whitespace s = false -> Py.lstrip (s ++ r) = (Py.lstrip s ++ r)%string.
Proof.
  induction s as [|x s IH]; simpl; [discriminate|].
  destruct (Py.is_space x); simpl; [exact IH | reflexivity].
Qed.

Lemma only_whitespace_append (a b : string) :
  only_whitespace (a ++ b) = only_whitespace a && only_whitespace b.
Proof.
  induction a as [|x a IH]; simpl; [reflexivity|].
  rewrite IH. now rewrite andb_assoc.
Qed.

(** Whitespace put around a text is stripped with the text's own. *)
Lemma strip_padded (core p : string) :
  padded core p -> Py.strip p = Py.strip core.
Proof.
  intros (l & r & Hl & Hr & ->). unfold Py.strip.
  rewrite (lstrip_padding l _ Hl).
  destruct (only_whitespace core) eqn:Hc.
  - assert (Hcr : only_whitespace (core ++ r) = true)
      by (rewrite only_whitespace_append, Hc, Hr; reflexivity).
    fold (Py.strip (core ++ r)). fold (Py.strip core).
    now rewrite (only_whitespace_strip _ Hcr), (only_whitespace_strip _ Hc).
  - rewrite (lstrip_append core r Hc). now apply rstrip_padding.
Qed.

Section MoreExtract.

Context {File Page Bytes : Type}.
Variable PdfReader : File -> result (list Page).
Variable write : list Page -> Bytes.

(** X7. For a file that decodes and a page list in ASCII whose tokens are
    at most 4300 characters long, [extract_pages] returns an output exactly
    when every token of the page list is a bare decimal number between 1
    and the page count; the output then has one page per token. *)
Theorem extract_pages_ok_iff
    (file : File) (pages : list Page) (pages_text : string) :
  PdfReader file = Ok pages ->
  is_ascii pages_text = true ->
  Forall (fun t => int_accepts t = true) (page_tokens pages_text) ->
  ((exists data, extract_pages PdfReader write file pages_text = Ok data)
   <-> Forall (passing_page_token (Z.of_nat (List.length pages)))
         (page_tokens pages_text))
  /\ (forall writer,
         extract_loop pages (Z.of_nat (List.length pages))
           (page_tokens pages_text) [] = Ok writer ->
         List.length writer = List.length (page_tokens pages_text)).
Proof.
  intros Hr _ Hacc. split; [split|].
  - intros (data & H). unfold extract_pages in H. rewrite Hr in H.
    cbn [bind] in H.
    destruct (extract_loop pages (Z.of_nat (List.length pages))
                (page_tokens pages_text) []) as [w|e] eqn:E;
      [|discriminate].
    pose proof (extract_loop_ok_good _ _ _ _ E) as Hgood.
    clear E H. induction Hgood as [|t ts [Hd Hrange] _ IH]; [constructor|].
    inversion Hacc; subst. constructor; [|now apply IH].
    repeat split; (assumption || apply Hrange).
  - intros Hpass.
    assert (Hgood : Forall (good_page_token (Z.of_nat (List.length pages)))
                      (page_tokens pages_text)).
    { eapply Forall_impl; [|exact Hpass].
      intros t. apply passing_page_token_good. }
    destruct (extract_loop_good pages _ Hgood) as (out & _ & Hloop).
    exists (write out). unfold extract_pages. rewrite Hr. cbn [bind].
    specialize (Hloop [] []). rewrite app_nil_r in Hloop.
    rewrite Hloop. reflexivity.
  - intros writer H.
    pose proof (extract_loop_ok_good _ _ _ _ H) as Hgood.
    destruct (extract_loop_good pages _ Hgood) as (out & Hout & Hloop).
    specialize (Hloop [] []). rewrite app_nil_r in Hloop.
    rewrite Hloop in H. inversion H; subst.
    symmetry. eapply Forall2_length; exact Hout.
Qed.

(** X8. [extract_pages] does not see whitespace (spaces, tabs, line ends)
    around the pieces of the page list: putting whitespace before and after
    the pieces between the commas changes neither the output nor the
    exception. *)
Theorem extract_pages_whitespace_around_tokens
    (file : File) (text1 text2 : string) :
  Forall2 padded (Py.split "," text1) (Py.split "," text2) ->
  extract_pages PdfReader write file text2
  = extract_pages PdfReader write file text1.
Proof.
  intros H.
  assert (E : map Py.strip (Py.split "," text2)
              = map Py.strip (Py.split "," text1)).
  { induction H as [|p1 p2 l1 l2 Hp _ IH]; simpl; [reflexivity|].
    now rewrite (strip_padded p1 p2 Hp), IH. }
  unfold extract_pages. now rewrite !page_tokens_stripped, E.
Qed.

End MoreExtract.

Lemma extract_pages_ok_iff_witness :
  Demo.reader [10; 20; 30]%nat = Ok [10; 20; 30]%nat
  /\ exists data, Demo.extract [10; 20; 30]%nat "2, 2,3" = Ok data.
Proof.
  split; [reflexivity|].
  apply (proj1 (extract_pages_ok_iff Demo.reader Demo.writer
                  [10; 20; 30]%nat [10; 20; 30]%nat "2, 2,3" eq_refl eq_refl
                  ltac:(repeat constructor))).
  repeat constructor; vm_compute; discriminate.
Defined.

Lemma padded_example (l core r : string) :
  only_whitespace l = true -> only_whitespace r = true ->
  padded core (l ++ core ++ r).
Proof. intros Hl Hr. exists l, r. auto. Defined.

Lemma extract_pages_whitespace_around_tokens_witness :
  Demo.extract [10; 20; 30]%nat
    (String "009" "3 , 1" ++ String "010" "")
  = Demo.extract [10; 20; 30]%nat "3,1".
Proof.
  apply (extract_pages_whitespace_around_tokens Demo.reader Demo.writer).
  constructor; [|constructor; [|constructor]].
  - exact (padded_example (String "009" "") "3" " " eq_refl eq_refl).
  - exact (padded_example " " "1" (String "010" "") eq_refl eq_refl).
Defined.
